(** * archiiv: the identifier codec ([id]) and the record store ([fs])

    A shallow embedding of the Go packages [archiiv/id] and [archiiv/fs].

    Conventions of the embedding:
    - a Go [byte] is an [ascii] (eight bits), a Go [string] is a [string],
      a [[]byte] is a [list ascii];
    - a [*big.Int] that is never negative is an [N]; a Go [int] is a [Z];
    - a Go function returning [(T, error)] returns a pair [T * option error],
      [None] being the [nil] error;
    - [map[id.ID]*record] is a [gmap] from identifiers to heap locations and
      the records live in a separate heap, so that two names for one
      pointer see the same record. *)

From Stdlib Require Import NArith ZArith Lia Ascii String.
From stdpp Require Import gmap strings list fin_maps sorting.
From Equations Require Import Equations.

Local Open Scope N_scope.

(** A Go [byte]. *)
Abbreviation byte := ascii (only parsing).

(** Go's [error] values.  The packages build their errors from string
    literals ([errors.New], [fmt.Errorf]); each literal is a constructor. *)
Inductive os_error :=
  | ENOENT      (* no such file or directory *)
  | EISDIR      (* is a directory *)
  | ENOTEMPTY.  (* directory not empty *)

Inductive error :=
  | ErrInvalidLength (n : nat)        (* "invalid b58 string length (%v)" *)
  | ErrInvalidByte (r : byte)         (* "invalid byte inside b58 string (%v)" *)
  | ErrIdDoesntExist                  (* "id doesn't exist" *)
  | ErrChildAlreadyThere              (* "child already there" *)
  | ErrDupliciteId                    (* "duplicite id" *)
  | ErrIdNotFound                     (* "id not found" *)
  | ErrSectionNameNotSane             (* "section name is not sane" *)
  | ErrChildAlreadyExists             (* "child with this id already exists" *)
  | ErrGarbageDirectory               (* "garbage directory in fs root" *)
  | ErrGarbageFile (name : string)    (* "garbage file in fs root: %s" *)
  | ErrJsonDecode                     (* "json decore err: %w" *)
  | ErrRootNotFound                   (* "the root ID not found in fs" *)
  | ErrOS (e : os_error).             (* an error of package os *)

Global Instance os_error_eq_dec : EqDecision os_error.
Proof. solve_decision. Defined.
Global Instance error_eq_dec : EqDecision error.
Proof. solve_decision. Defined.

(** ** Package id *)
Module Id.

(** [type ID struct { value [16]byte }] *)
Record ID := mkID { value : list byte }.

Global Instance ID_eq_dec : EqDecision ID.
Proof. solve_decision. Defined.
Global Instance ID_countable : Countable ID :=
  inj_countable' value mkID (fun u => match u with mkID _ => eq_refl end).

(** The zero value [ID{}]. *)
Definition zeroID : ID := mkID (replicate 16 zero).

(** An identifier holds exactly sixteen bytes. *)
Definition wf_ID (u : ID) : Prop := length (value u) = 16%nat.

Definition b58table : string :=
  "123456789ABCDEFGHJKLMNPQRSTUVWXYZabcdefghijkmnopqrstuvwxyz".

Definition strlen : nat := 22.

(** [[]byte(b58table)], the 58 symbols of the alphabet. *)
Definition alphabet : list byte := list_ascii_of_string b58table.

(** [table[i]] for [table := []byte(b58table)]; the index is always below
    58 where the code uses it, the default stands for the bounds panic. *)
Definition table_at (i : N) : byte := nth (N.to_nat i) alphabet zero.

(** [strings.IndexByte(s, c)]: index of the first [c] in [s], or -1. *)
Fixpoint IndexByte (s : string) (c : byte) : Z :=
  match s with
  | EmptyString => (-1)%Z
  | String a s' =>
      if Ascii.eqb a c then 0%Z
      else match IndexByte s' c with
           | Z.neg _ => (-1)%Z
           | i => Z.succ i
           end
  end.

(** [new(big.Int).SetBytes(b)]: [b] read as a big-endian unsigned integer. *)
Definition SetBytes (b : list byte) : N :=
  fold_left (fun acc x => acc * 256 + N_of_ascii x) b 0.

(** Both loops over a [big.Int] stop because a division by a base of at
    least two shortens the binary representation of a non-zero number. *)
Ltac size_div_decreases n b :=
  let Hq := fresh "Hq" in
  assert (Hq : (n / b) * 2 <= n) by
    (transitivity (b * (n / b)); [|apply N.Div0.mul_div_le];
     rewrite (N.mul_comm b); apply N.mul_le_mono_l; lia);
  generalize dependent (n / b); intros q Hq;
  destruct (N.eq_dec q 0) as [->|];
  [ rewrite (N.size_log2 n) by done; simpl; lia
  | rewrite !N.size_log2 by done;
    assert (N.log2 (2 * q) <= N.log2 n) as Hl by (apply N.log2_le_mono; lia);
    rewrite N.log2_double in Hl by lia; lia ].

(** [n.Bytes()]: the big-endian bytes of [n] without leading zero bytes
    (the empty slice for 0). *)
Equations? Bytes (n : N) : list byte by wf (N.to_nat (N.size n)) lt :=
  Bytes n with N.eq_dec n 0 => {
    | left _ := [];
    | right _ := Bytes (n / 256) ++ [ascii_of_N (n mod 256)] }.
Proof. size_div_decreases n 256. Qed.

(** [copy(dst, src)] on byte slices: the first [min(len(dst), len(src))]
    cells of [dst] are overwritten. *)
Definition copy (dst src : list byte) : list byte :=
  take (length dst) src ++ drop (length src) dst.

(** The first loop of [String]:
    [for n.Cmp(zero) != 0 { n.DivMod(n, base, remainder);
                            e = append(e, table[remainder.Int64()]) }] *)
Equations? encode_loop (n : N) (e : list byte) : list byte
  by wf (N.to_nat (N.size n)) lt :=
  encode_loop n e with N.eq_dec n 0 => {
    | left _ := e;
    | right _ := encode_loop (n / 58) (e ++ [table_at (n mod 58)]) }.
Proof. size_div_decreases n 58. Qed.

(** The second loop: [for len(e) < strlen { e = append(e, table[0]) }] *)
Equations? pad_loop (e : list byte) : list byte
  by wf (strlen - length e)%nat lt :=
  pad_loop e with decide (length e < strlen)%nat => {
    | left _ := pad_loop (e ++ [table_at 0]);
    | right _ := e }.
Proof. rewrite length_app. simpl. lia. Qed.

(** [func (id ID) String() string]; the third loop reverses [e] in place. *)
Definition String (id : ID) : string :=
  let n := SetBytes (value id) in
  let e := encode_loop n [] in
  let e := pad_loop e in
  let e := reverse e in
  string_of_list_ascii e.

(** The loop of [Parse] over [[]byte(s)]: [inr r] is the early return on a
    byte [r] outside the table, [inl result] the value after the loop. *)
Fixpoint parse_loop (bs : list byte) (result : N) : N + byte :=
  match bs with
  | [] => inl result
  | r :: bs' =>
      let idx := IndexByte b58table r in
      if (idx =? -1)%Z then inr r
      else parse_loop bs' (result * 58 + Z.to_N idx)
  end.

(** [func Parse(s string) (id ID, err error)]; the results are named, so
    an early [return] yields the zero identifier with the error. *)
Definition Parse (s : string) : ID * option error :=
  if decide (String.length s <> strlen) then
    (zeroID, Some (ErrInvalidLength (String.length s)))
  else
    match parse_loop (list_ascii_of_string s) 0 with
    | inr r => (zeroID, Some (ErrInvalidByte r))
    | inl result =>
        let bytes := Bytes result in
        let padding := (16 - Z.of_nat (length bytes))%Z in
        let bytes :=
          if (0 <? padding)%Z
          then replicate (Z.to_nat padding) zero ++ bytes
          else bytes in
        (mkID (copy (value zeroID) bytes), None)
    end.

End Id.


(** ** Package fs *)
Module Fs.
Import Id.

(** *** The patterns of the storage root *)

Definition in_range (lo hi c : byte) : bool :=
  (N_of_ascii lo <=? N_of_ascii c) && (N_of_ascii c <=? N_of_ascii hi).

(** The character class of [idPattern]: [[1-9A-HJ-NP-Za-km-z]]. *)
Definition idClass (c : byte) : bool :=
  in_range "1" "9" c || in_range "A" "H" c || in_range "J" "N" c
  || in_range "P" "Z" c || in_range "a" "k" c || in_range "m" "z" c.

(** The character class of [sectionPattern]: [[a-zA-Z0-9_-]]. *)
Definition sectionClass (c : byte) : bool :=
  in_range "a" "z" c || in_range "A" "Z" c || in_range "0" "9" c
  || Ascii.eqb c "_" || Ascii.eqb c "-".

(** [idPattern] at the start of the text: exactly 22 characters of the
    class; the rest of the text is returned. *)
Definition match_idPattern (cs : list byte) : option (list byte) :=
  if bool_decide (length (take 22 cs) = 22%nat) && forallb idClass (take 22 cs)
  then Some (drop 22 cs) else None.

(** [sectionPattern] up to the end of the text: one character or more. *)
Definition match_sectionPattern (cs : list byte) : bool :=
  match cs with
  | [] => false
  | _ :: _ => forallb sectionClass cs
  end.


(** [onlyFileInFsRootPatternRegex.MatchString(name)]:
    [^idPattern(\.sectionPattern)?$]. *)
Definition onlyFileInFsRootPattern_MatchString (name : string) : bool :=
  match match_idPattern (list_ascii_of_string name) with
  | None => false
  | Some [] => true
  | Some (c :: sec) => Ascii.eqb c "." && match_sectionPattern sec
  end.

(** *** Records, the index and the operating system *)

(** A [*record] is [nil] or the address of a record on the Go heap. *)
Definition loc := positive.
Definition ptr := option loc.

(** [type record struct]; [refs] is a [uint] (64 bits), [mutex] is [true]
    while the [sync.Mutex] is held. *)
Record record := mkRecord {
  Children : list ID;
  IsDir : bool;
  Name : string;
  id : ID;
  refs : N;
  mutex : bool }.

(** A [uint] wraps around at 2^64. *)
Definition uint_modulus : N := 2 ^ 64.

(** A [sync.RWMutex]: the number of readers and whether a writer holds it. *)
Record RWMutex := mkRWMutex { readers : nat; writer : bool }.

(** [type Fs struct] *)
Record Fs := mkFs {
  lock : RWMutex;
  records : gmap ID loc;
  root : ID;
  basePath : string }.

(** What a file holds: the JSON document of a record (the children are the
    quoted texts of identifiers, which [UnmarshalJSON] hands to [Parse]), or
    bytes that [encoding/json] does not decode into a record. *)
Inductive content :=
  | Document (children : list string) (is_dir : bool) (name : string)
  | Blob (bytes : list byte).

(** A directory entry.  Directories below the storage root are not looked
    into, only whether they are empty matters (to [os.Remove]). *)
Inductive node :=
  | Dir (empty : bool)
  | File (c : content).

Definition is_dir (nd : node) : bool :=
  match nd with Dir _ => true | File _ => false end.

(** The file system of the machine: the directories that exist, by their
    absolute path ([getConfig] insists on an absolute data directory), and
    the working directory of the process, against which a relative name
    resolves. *)
Record OS := mkOS { dirs : gmap string (gmap string node); cwd : string }.

(** The state a call runs in: the [Fs] value, the Go heap holding the
    records and the files of the machine. *)
Record World := mkWorld { the_fs : Fs; heap : gmap loc record; os : OS }.

Global Instance content_eq_dec : EqDecision content.
Proof. solve_decision. Defined.
Global Instance node_eq_dec : EqDecision node.
Proof. solve_decision. Defined.
Global Instance record_eq_dec : EqDecision record.
Proof. solve_decision. Defined.
Global Instance RWMutex_eq_dec : EqDecision RWMutex.
Proof. solve_decision. Defined.

Definition set_Children (c : list ID) (r : record) : record :=
  mkRecord c (IsDir r) (Name r) (id r) (refs r) (mutex r).
Definition set_refs (n : N) (r : record) : record :=
  mkRecord (Children r) (IsDir r) (Name r) (id r) n (mutex r).
Definition set_mutex (b : bool) (r : record) : record :=
  mkRecord (Children r) (IsDir r) (Name r) (id r) (refs r) b.
Definition set_lock (l : RWMutex) (f : Fs) : Fs :=
  mkFs l (records f) (root f) (basePath f).
Definition set_records (m : gmap ID loc) (f : Fs) : Fs :=
  mkFs (lock f) m (root f) (basePath f).
Definition set_fs (f : Fs) (w : World) : World := mkWorld f (heap w) (os w).
Definition set_heap (h : gmap loc record) (w : World) : World :=
  mkWorld (the_fs w) h (os w).
Definition set_os (o : OS) (w : World) : World := mkWorld (the_fs w) (heap w) o.

(** *** Package os *)

Definition entry_le (a b : string * node) : Prop := String.le (fst a) (fst b).
Global Instance entry_le_dec : RelDecision entry_le.
Proof. intros a b. unfold entry_le. apply _. Defined.

(** [os.ReadDir(d)]: the entries of [d] sorted by file name. *)
Definition ReadDir (o : OS) (d : string) : list (string * node) * option error :=
  match dirs o !! d with
  | None => ([], Some (ErrOS ENOENT))
  | Some dir => (merge_sort entry_le (map_to_list dir), None)
  end.

(** [os.Open(d/name)] and reading the file to its end. *)
Definition ReadFile (o : OS) (d name : string) : content * option error :=
  match dirs o !! d with
  | None => (Blob [], Some (ErrOS ENOENT))
  | Some dir =>
      match dir !! name with
      | None => (Blob [], Some (ErrOS ENOENT))
      | Some (Dir _) => (Blob [], Some (ErrOS EISDIR))
      | Some (File c) => (c, None)
      end
  end.

(** [os.Create(d/name)] followed by writing [c] to the file. *)
Definition WriteFile (o : OS) (d name : string) (c : content) : OS * option error :=
  match dirs o !! d with
  | None => (o, Some (ErrOS ENOENT))
  | Some dir =>
      match dir !! name with
      | Some (Dir _) => (o, Some (ErrOS EISDIR))
      | _ => (mkOS (<[d := <[name := File c]> dir]> (dirs o)) (cwd o), None)
      end
  end.

(** [os.Remove(d/name)] *)
Definition Remove (o : OS) (d name : string) : OS * option error :=
  match dirs o !! d with
  | None => (o, Some (ErrOS ENOENT))
  | Some dir =>
      match dir !! name with
      | None => (o, Some (ErrOS ENOENT))
      | Some (Dir false) => (o, Some (ErrOS ENOTEMPTY))
      | Some _ => (mkOS (<[d := delete name dir]> (dirs o)) (cwd o), None)
      end
  end.

(** *** Package encoding/json, at the type [record] *)

(** [enc.Encode(r)]: only [Children], [IsDir] and [Name] are exported. *)
Definition json_encode (r : record) : content :=
  Document (String <$> Children r) (IsDir r) (Name r).

(** Decoding the children: every text goes through [ID.UnmarshalJSON],
    that is through [Parse], and the first error stops the decoder. *)
Fixpoint decode_children (l : list string) : list ID * option error :=
  match l with
  | [] => ([], None)
  | s :: l' =>
      match Parse s with
      | (_, Some e) => ([], Some e)
      | (u, None) =>
          match decode_children l' with
          | (_, Some e) => ([], Some e)
          | (us, None) => (u :: us, None)
          end
      end
  end.

(** [dec.Decode(rec)] into [rec := new(record)]: the fields that are not
    exported keep their zero values. *)
Definition json_decode (c : content) : record * option error :=
  let zero_record := mkRecord [] false "" zeroID 0 false in
  match c with
  | Blob _ => (zero_record, Some ErrJsonDecode)
  | Document chs d n =>
      match decode_children chs with
      | (_, Some _) => (zero_record, Some ErrJsonDecode)
      | (us, None) => (mkRecord us d n zeroID 0 false, None)
      end
  end.

(** *** Running Go code *)

(** How a call can end without returning. *)
Inductive crash :=
  | PanicNilDereference   (* panic: invalid memory address or nil pointer dereference *)
  | FatalRWMutexUnlock    (* fatal error: sync: Unlock of unlocked RWMutex *)
  | FatalMutexUnlock      (* fatal error: sync: unlock of unlocked mutex *)
  | Blocked.              (* Lock of a mutex that nobody will release *)

Inductive outcome (A : Type) :=
  | Return (a : A)
  | Crash (c : crash)
  | OutOfFuel.
Arguments Return {A} a.
Arguments Crash {A} c.
Arguments OutOfFuel {A}.

Global Instance crash_eq_dec : EqDecision crash.
Proof. solve_decision. Defined.

(** A panic unwinds the stack and runs the deferred calls; a fatal error
    stops the process at once and a blocked goroutine runs nothing more. *)
Definition unwinds (c : crash) : bool :=
  match c with PanicNilDereference => true | _ => false end.

Definition returned {A} (o : outcome A) : bool :=
  match o with Return _ => true | _ => false end.

Definition M (A : Type) : Type := World -> outcome A * World.

Global Instance M_ret : MRet M := fun A a w => (Return a, w).
Global Instance M_bind : MBind M := fun A B f m w =>
  match m w with
  | (Return a, w') => f a w'
  | (Crash c, w') => (Crash c, w')
  | (OutOfFuel, w') => (OutOfFuel, w')
  end.

Definition get : M World := fun w => (Return w, w).
Definition modify (f : World -> World) : M unit := fun w => (Return tt, f w).
Definition crashes {A} (c : crash) : M A := fun w => (Crash c, w).
Definition out_of_fuel {A} : M A := fun w => (OutOfFuel, w).

(** [defer d(); body]: [d] runs when [body] returns and when it panics. *)
Definition defer {A} (d : M unit) (body : M A) : M A := fun w =>
  match body w with
  | (Return a, w') =>
      match d w' with
      | (Return _, w'') => (Return a, w'')
      | (Crash c, w'') => (Crash c, w'')
      | (OutOfFuel, w'') => (OutOfFuel, w'')
      end
  | (Crash c, w') =>
      if unwinds c then
        match d w' with
        | (Return _, w'') => (Crash c, w'')
        | (Crash c', w'') => (Crash c', w'')
        | (OutOfFuel, w'') => (OutOfFuel, w'')
        end
      else (Crash c, w')
  | (OutOfFuel, w') => (OutOfFuel, w')
  end.

(** [new(record)] with the fields then assigned: a fresh heap cell. *)
Definition new (r : record) : M ptr := fun w =>
  let l := fresh (dom (heap w)) in
  (Return (Some l), set_heap (<[l := r]> (heap w)) w).

(** Reading through a pointer.  A Go pointer is [nil] or points to a live
    record, so in a world built by this code every location is in the heap;
    the model gives the other case the outcome of the [nil] one. *)
Definition deref (p : ptr) : M record := fun w =>
  match p with
  | None => (Crash PanicNilDereference, w)
  | Some l =>
      match heap w !! l with
      | None => (Crash PanicNilDereference, w)
      | Some r => (Return r, w)
      end
  end.

(** Writing the fields of [*p]. *)
Definition assign (p : ptr) (f : record -> record) : M unit :=
  r ← deref p;
  match p with
  | None => crashes PanicNilDereference
  | Some l => modify (fun w => set_heap (<[l := f r]> (heap w)) w)
  end.

(** *** Package sync *)

(** [rw.RLock()] *)
Definition RLock : M unit := fun w =>
  let rw := lock (the_fs w) in
  if writer rw then (Crash Blocked, w)
  else (Return tt, set_fs (set_lock (mkRWMutex (S (readers rw)) false) (the_fs w)) w).

(** [rw.Lock()] *)
Definition Lock : M unit := fun w =>
  let rw := lock (the_fs w) in
  if writer rw || negb (Nat.eqb (readers rw) 0) then (Crash Blocked, w)
  else (Return tt, set_fs (set_lock (mkRWMutex 0 true) (the_fs w)) w).

(** [rw.Unlock()]: "It is a run-time error if rw is not locked for writing
    on entry to Unlock" (package sync); the run time reports it as the fatal
    error [sync: Unlock of unlocked RWMutex]. *)
Definition Unlock : M unit := fun w =>
  let rw := lock (the_fs w) in
  if writer rw
  then (Return tt, set_fs (set_lock (mkRWMutex (readers rw) false) (the_fs w)) w)
  else (Crash FatalRWMutexUnlock, w).

(** [func (r *record) lock()] *)
Definition record_lock (r : ptr) : M unit :=
  rec ← deref r;
  if mutex rec then crashes Blocked else assign r (set_mutex true).

(** [func (r *record) unlock()] *)
Definition record_unlock (r : ptr) : M unit :=
  rec ← deref r;
  if mutex rec then assign r (set_mutex false) else crashes FatalMutexUnlock.

(** *** The functions of fs.go *)

(** The body of [record] between the two calls on [fs.lock]:
    [r, e := fs.records[u]; if e { return nil, errors.New(..) }; return r, nil].
    A map yields the zero value, the [nil] pointer, for a key it lacks. *)
Definition record_lookup (u : ID) : M (ptr * option error) :=
  w ← get;
  let r := records (the_fs w) !! u in
  let e := bool_decide (is_Some r) in
  if e then mret (None, Some ErrIdDoesntExist)
  else mret (r, None).

(** [func (fs *Fs) record(u id.ID)], which returns a [*record] and an
    [error]: [fs.lock.RLock(); defer fs.lock.Unlock()] and the body. *)
Definition Fs_record (u : ID) : M (ptr * option error) :=
  RLock;;
  defer Unlock (record_lookup u).

(** [fs.records[u] = r] *)
Definition index_store (u : ID) (r : ptr) : M unit :=
  match r with
  | None => crashes PanicNilDereference
  | Some l =>
      modify (fun w => set_fs (set_records (<[u := l]> (records (the_fs w))) (the_fs w)) w)
  end.

(** [func (fs *Fs) setRecord(r *record)] *)
Definition setRecord (r : ptr) : M unit :=
  Lock;;
  defer Unlock (
    rec ← deref r;
    index_store (id rec) r).

(** [func (fs *Fs) writeRecord(r *record) error]: the file [fs.path(name)]
    is the entry [name] of the directory [fs.basePath]. *)
Definition writeRecord (r : ptr) : M (option error) :=
  rec ← deref r;
  w ← get;
  let '(o, err) :=
    WriteFile (os w) (basePath (the_fs w)) (String (id rec)) (json_encode rec) in
  modify (set_os o);;
  mret err.

(** [func (fs *Fs) newRecord(parent *record, name string, dir bool)];
    [fresh_id] is the value that [id.New()] draws (its panic on a failing
    random source is left out). *)
Definition newRecord (parent : ptr) (name : string) (dir : bool) (fresh_id : ID)
  : M (ptr * option error) :=
  child ← new (mkRecord [] dir name fresh_id 1 false);
  setRecord child;;
  p ← deref parent;
  if bool_decide (fresh_id ∈ Children p) then mret (None, Some ErrChildAlreadyThere)
  else
    assign parent (set_Children (Children p ++ [fresh_id]));;
    err ← writeRecord child;
    mret (child, err).

(** The first loop of [removeID]:
    [for ; i < len(s); i++ { if s[i] == v { pos = i; break } }];
    [rest] is [s[i:]], the result is the pair [(i, pos)] after the loop.
    A [break] leaves the loop before [i++]. *)
Fixpoint removeID_find (rest : list ID) (v : ID) (i : nat) : nat * Z :=
  match rest with
  | [] => (i, (-1)%Z)
  | x :: rest' =>
      if bool_decide (x = v) then (i, Z.of_nat i)
      else removeID_find rest' v (S i)
  end.

(** The second loop, which goes on from the same [i]:
    [for ; i < len(s); i++ { if s[i] == v { return s, errors.New(..) } }];
    [true] when it returns. *)
Fixpoint removeID_again (rest : list ID) (v : ID) : bool :=
  match rest with
  | [] => false
  | x :: rest' => if bool_decide (x = v) then true else removeID_again rest' v
  end.

(** [func removeID(s []id.ID, v id.ID) ([]id.ID, error)].  The swap-remove
    writes into the array of [s]; the result is the slice that is returned. *)
Definition removeID (s : list ID) (v : ID) : list ID * option error :=
  let '(i, pos) := removeID_find s v 0 in
  if removeID_again (drop i s) v then (s, Some ErrDupliciteId)
  else if (pos =? -1)%Z then (s, Some ErrIdNotFound)
  else
    match last s with
    | None => (s, None)
    | Some x => (take (length s - 1) (<[Z.to_nat pos := x]> s), None)
    end.

(** The first loop of [deleteRecord]:
    [for _, u := range r.Children { err := fs.Unmount(r.id, u); ... }],
    over the slice as it was when the loop began.  The cells of its array
    could only change through the swap-remove of [removeID], which is never
    reached ([removeID_never_succeeds] below). *)
Fixpoint deleteRecord_children (unmount : ID -> ID -> M (option error))
    (r : ptr) (us : list ID) : M (option error) :=
  match us with
  | [] => mret None
  | u :: us' =>
      rec ← deref r;
      err ← unmount (id rec) u;
      match err with
      | Some e => mret (Some e)
      | None => deleteRecord_children unmount r us'
      end
  end.

(** The second loop of [deleteRecord]: [os.Remove(e.Name())] is given the
    bare file name, which the operating system resolves in the working
    directory of the process. *)
Fixpoint deleteRecord_files (idStr : string) (entries : list (string * node))
  : M (option error) :=
  match entries with
  | [] => mret None
  | e :: entries' =>
      if String.prefix idStr (fst e) then
        w ← get;
        let '(o, err) := Remove (os w) (cwd (os w)) (fst e) in
        modify (set_os o);;
        match err with
        | Some x => mret (Some x)
        | None => deleteRecord_files idStr entries'
        end
      else deleteRecord_files idStr entries'
  end.

(** [func (fs *Fs) deleteRecord(r *record) error], given the [Unmount] it
    calls. *)
Definition deleteRecord_with (unmount : ID -> ID -> M (option error)) (r : ptr)
  : M (option error) :=
  rec ← deref r;
  err ← deleteRecord_children unmount r (Children rec);
  match err with
  | Some e => mret (Some e)
  | None =>
      w ← get;
      let '(entries, err) := ReadDir (os w) (basePath (the_fs w)) in
      match err with
      | Some e => mret (Some e)
      | None =>
          rec ← deref r;
          deleteRecord_files (String (id rec)) entries
      end
  end.

(** [func (fs *Fs) GetRoot() id.ID] *)
Definition GetRoot : M ID := w ← get; mret (root (the_fs w)).

(** [func (fs *Fs) GetChildren(u id.ID) ([]id.ID, error)] *)
Definition GetChildren (u : ID) : M (list ID * option error) :=
  w ← get;
  r ← deref (records (the_fs w) !! u);
  mret (Children r, None).

(** [func (fs *Fs) Mkdir(parentID id.ID, name string) (id.ID, error)] *)
Definition Mkdir (parentID : ID) (name : string) (fresh_id : ID)
  : M (ID * option error) :=
  '(parent, err) ← Fs_record parentID;
  match err with
  | Some _ => mret (zeroID, None)
  | None =>
      '(r, err) ← newRecord parent name true fresh_id;
      rec ← deref r;
      mret (id rec, err)
  end.

(** [func (fs *Fs) Touch(parentID id.ID, name string) (id.ID, error)] *)
Definition Touch (parentID : ID) (name : string) (fresh_id : ID)
  : M (ID * option error) :=
  '(parent, err) ← Fs_record parentID;
  match err with
  | Some e => mret (zeroID, Some e)
  | None =>
      '(r, err) ← newRecord parent name false fresh_id;
      rec ← deref r;
      mret (id rec, err)
  end.

(** [func (fs *Fs) Unmount(parentID id.ID, childID id.ID) error].
    [Unmount] and [deleteRecord] call each other; [fuel] bounds the depth of
    these calls. *)
Fixpoint Unmount (fuel : nat) (parentID childID : ID) : M (option error) :=
  match fuel with
  | O => out_of_fuel
  | S fuel' =>
      '(parent, err) ← Fs_record parentID;
      match err with
      | Some e => mret (Some e)
      | None =>
          record_lock parent;;
          defer (record_unlock parent) (
            p ← deref parent;
            let '(s, err) := removeID (Children p) childID in
            assign parent (set_Children s);;
            match err with
            | Some e => mret (Some e)
            | None =>
                err ← writeRecord parent;
                match err with
                | Some e => mret (Some e)
                | None =>
                    '(child, err) ← Fs_record childID;
                    match err with
                    | Some e => mret (Some e)
                    | None =>
                        record_lock child;;
                        defer (record_unlock child) (
                          c ← deref child;
                          assign child (set_refs ((refs c + uint_modulus - 1) mod uint_modulus));;
                          c ← deref child;
                          if refs c =? 0
                          then deleteRecord_with (Unmount fuel') child
                          else mret None)
                    end
                end
            end)
      end
  end.

(** [func (fs *Fs) deleteRecord(r *record) error] *)
Definition deleteRecord (fuel : nat) (r : ptr) : M (option error) :=
  deleteRecord_with (Unmount fuel) r.

(** [func (fs *Fs) Mount(parent id.ID, newChild id.ID) error] *)
Definition Mount (parent newChild : ID) : M (option error) :=
  '(child, err) ← Fs_record newChild;
  match err with
  | Some e => mret (Some e)
  | None =>
      '(rec, err) ← Fs_record parent;
      match err with
      | Some e => mret (Some e)
      | None =>
          record_lock rec;;
          defer (record_unlock rec) (
            r ← deref rec;
            if bool_decide (newChild ∈ Children r)
            then mret (Some ErrChildAlreadyExists)
            else
              assign rec (set_Children (Children r ++ [newChild]));;
              record_lock child;;
              c ← deref child;
              assign child (set_refs ((refs c + 1) mod uint_modulus));;
              record_unlock child;;
              writeRecord rec)
      end
  end.

(** The first loop of [loadRecords], over the entries of the storage root. *)
Fixpoint loadRecords_scan (entries : list (string * node))
    (recordFiles : list string) : list string * option error :=
  match entries with
  | [] => (recordFiles, None)
  | e :: entries' =>
      if is_dir (snd e) then (recordFiles, Some ErrGarbageDirectory)
      else
        let name := fst e in
        if negb (onlyFileInFsRootPattern_MatchString name)
        then (recordFiles, Some (ErrGarbageFile name))
        else
          loadRecords_scan entries'
            (if bool_decide (String.length name = 22%nat)
             then recordFiles ++ [name] else recordFiles)
  end.

(** The second loop of [loadRecords], over [recordFiles]. *)
Fixpoint loadRecords_read (recordFiles : list string) : M (option error) :=
  match recordFiles with
  | [] => mret None
  | recordName :: rest =>
      let '(u, err) := Parse recordName in
      match err with
      | Some e => mret (Some e)
      | None =>
          w ← get;
          let '(f, err) := ReadFile (os w) (basePath (the_fs w)) recordName in
          match err with
          | Some e => mret (Some e)
          | None =>
              rec ← new (mkRecord [] false "" zeroID 0 false);
              let '(decoded, err) := json_decode f in
              match err with
              | Some e => mret (Some ErrJsonDecode)
              | None =>
                  assign rec (fun _ => decoded);;
                  index_store u rec;;
                  loadRecords_read rest
              end
          end
      end
  end.

(** [func (fs *Fs) loadRecords() error] *)
Definition loadRecords : M (option error) :=
  w ← get;
  let '(entries, err) := ReadDir (os w) (basePath (the_fs w)) in
  match err with
  | Some e => mret (Some e)
  | None =>
      let '(recordFiles, err) := loadRecords_scan entries [] in
      match err with
      | Some e => mret (Some e)
      | None => loadRecords_read recordFiles
      end
  end.

(** [func checkLoadedRecordsAreSane(map[id.ID]*record) error] *)
Definition checkLoadedRecordsAreSane (_ : gmap ID loc) : option error := None.

(** The world in which [NewFs] starts to load: [fs = new(Fs)] with its
    fields set, and no record allocated yet. *)
Definition empty_world (root : ID) (basePath : string) (o : OS) : World :=
  mkWorld (mkFs (mkRWMutex 0 false) ∅ root basePath) ∅ o.

(** [func NewFs(root id.ID, basePath string) (fs *Fs, err error)]: the
    results are named, the [Fs] of the final world is the one returned
    along with the error. *)
Definition NewFs (root : ID) (basePath : string) (o : OS)
  : outcome (option error) * World :=
  (err ← loadRecords;
   match err with
   | Some e => mret (Some e)
   | None =>
       w ← get;
       if negb (bool_decide (is_Some (records (the_fs w) !! root)))
       then mret (Some ErrRootNotFound)
       else mret (checkLoadedRecordsAreSane (records (the_fs w)))
   end) (empty_world root basePath o).

(** *** What the specification says of a store *)

(** The record indexed under [u], if any. *)
Definition record_of (w : World) (u : ID) : option record :=
  l ← records (the_fs w) !! u; heap w !! l.

(** The parents of [u]: the indexed identifiers whose record lists [u]
    among its children. *)
Definition parents_of (w : World) (u : ID) : list ID :=
  List.filter (fun k => match record_of w k with
                        | Some r => bool_decide (u ∈ Children r)
                        | None => false
                        end)
              (map_to_list (records (the_fs w))).*1.

Definition in_degree (w : World) (u : ID) : nat := length (parents_of w u).

(** Invariant (a): the reference count of every indexed record is the number
    of its parents. *)
Definition refcounts_match (w : World) : bool :=
  forallb (fun k => match record_of w k with
                    | Some r => refs r =? N.of_nat (in_degree w k)
                    | None => true
                    end)
          (map_to_list (records (the_fs w))).*1.

(** Invariant (b): no children list holds an identifier twice. *)
Definition children_distinct (w : World) : bool :=
  forallb (fun k => match record_of w k with
                    | Some r => bool_decide (NoDup (Children r))
                    | None => true
                    end)
          (map_to_list (records (the_fs w))).*1.

(** Two worlds with the same index, records and files. *)
Definition same_store (w w' : World) : Prop :=
  records (the_fs w') = records (the_fs w) /\ heap w' = heap w /\ os w' = os w.

(** Modelled from the spec: the error class [Corrupt] of its taxonomy
    ("unexpected entry in the storage root, malformed persisted document,
    wrong-size content"); fs.go has no error classes, only the messages. *)
Definition is_Corrupt (e : error) : bool :=
  match e with
  | ErrGarbageDirectory | ErrGarbageFile _ | ErrJsonDecode => true
  | _ => false
  end.

(** A directory entry that [loadRecords] refuses: a directory, or a name
    that does not match [onlyFileInFsRootPattern]. *)
Definition is_garbage (e : string * node) : bool :=
  is_dir (snd e) || negb (onlyFileInFsRootPattern_MatchString (fst e)).

(** The world once [fs.lock.RLock()] has counted one more reader. *)
Definition after_RLock (w : World) : World :=
  set_fs (set_lock (mkRWMutex (S (readers (lock (the_fs w)))) false) (the_fs w)) w.

(** A record as [loadRecords] leaves it: never referenced, and without its
    identifier. *)
Definition unreferenced (r : record) : Prop := refs r = 0 /\ id r = zeroID.

End Fs.

(** ** Package fs: the sections *)
Module Sections.
Import Id Fs.

(** [func checkSectionNameSanity(section string) error] *)
Definition checkSectionNameSanity (section : string) : option error :=
  if negb (match_sectionPattern (list_ascii_of_string section))
  then Some ErrSectionNameNotSane
  else None.

(** The argument that [getSectionFileName] hands to [fs.path]:
    [file.String() + "." + section]. *)
Definition sectionFileName (file : ID) (section : string) : string :=
  String file +:+ "." +:+ section.

(** An [*os.File] open for reading, as [os.Open] returns it. *)
Record ReadCloser := mkReadCloser { r_dir : string; r_name : string }.

(** An [*os.File] that [os.Create] has truncated and opened for writing,
    with the bytes written through it so far; the file holds just these
    bytes, this code having one writer per file at a time. *)
Record WriteCloser := mkWriteCloser { w_dir : string; w_name : string; w_written : list byte }.

(** [os.Open(d/name)]: a directory can be opened as well. *)
Definition Open (o : OS) (d name : string) : option ReadCloser * option error :=
  match dirs o !! d with
  | None => (None, Some (ErrOS ENOENT))
  | Some dir =>
      match dir !! name with
      | None => (None, Some (ErrOS ENOENT))
      | Some _ => (Some (mkReadCloser d name), None)
      end
  end.

(** [os.Create(d/name)]: the file is created or truncated. *)
Definition Create (o : OS) (d name : string) : OS * option WriteCloser * option error :=
  match dirs o !! d with
  | None => (o, None, Some (ErrOS ENOENT))
  | Some dir =>
      match dir !! name with
      | Some (Dir _) => (o, None, Some (ErrOS EISDIR))
      | _ => (mkOS (<[d := <[name := File (Blob [])]> dir]> (dirs o)) (cwd o),
              Some (mkWriteCloser d name []), None)
      end
  end.

(** Reading an open file to its end, as [io.Copy(w, f)] does.  No code
    here removes a file between [os.Open] and the reading; the model answers
    that case like a missing file. *)
Definition ReadAll (f : ReadCloser) : M (content * option error) :=
  w ← get;
  match dirs (os w) !! r_dir f with
  | None => mret (Blob [], Some (ErrOS ENOENT))
  | Some dir =>
      match dir !! r_name f with
      | None => mret (Blob [], Some (ErrOS ENOENT))
      | Some (Dir _) => mret (Blob [], Some (ErrOS EISDIR))
      | Some (File c) => mret (c, None)
      end
  end.

(** Writing [data] through an open file, as [io.Copy(f, body)] does. *)
Definition WriteAll (f : WriteCloser) (data : list byte) : M (option error) :=
  w ← get;
  match dirs (os w) !! w_dir f with
  | None => mret (Some (ErrOS ENOENT))
  | Some dir =>
      modify (set_os (mkOS (<[w_dir f := <[w_name f := File (Blob (w_written f ++ data))]> dir]>
                               (dirs (os w)))
                           (cwd (os w))));;
      mret None
  end.

(** [func (fs *Fs) OpenSection(id id.ID, section string) (io.ReadCloser, error)] *)
Definition OpenSection (u : ID) (section : string) : M (option ReadCloser * option error) :=
  match checkSectionNameSanity section with
  | Some e => mret (None, Some e)
  | None =>
      w ← get;
      mret (Open (os w) (basePath (the_fs w)) (sectionFileName u section))
  end.

(** [func (fs *Fs) CreateSection(id id.ID, section string) (io.WriteCloser, error)] *)
Definition CreateSection (u : ID) (section : string) : M (option WriteCloser * option error) :=
  match checkSectionNameSanity section with
  | Some e => mret (None, Some e)
  | None =>
      w ← get;
      let '(o, f, err) := Create (os w) (basePath (the_fs w)) (sectionFileName u section) in
      modify (set_os o);;
      mret (f, err)
  end.

(** [func (fs *Fs) DeleteSection(id id.ID, section string) error] *)
Definition DeleteSection (u : ID) (section : string) : M (option error) :=
  match checkSectionNameSanity section with
  | Some e => mret (Some e)
  | None =>
      w ← get;
      let '(o, err) := Remove (os w) (basePath (the_fs w)) (sectionFileName u section) in
      modify (set_os o);;
      mret err
  end.

End Sections.

(** ** The handlers of endpoints.go that call package fs *)
Module Endpoints.
Import Id Fs Sections.

(** What [sendOK] is given. *)
Inductive payload :=
  | NoPayload                          (* nil *)
  | ChildrenPayload (ch : list ID)     (* the slice of GetChildren *)
  | NewFilePayload (u : ID)            (* OkResponse{NewFileid: fileID} *)
  | NewDirPayload (u : ID).            (* OkResponse{NewDirID: fileID} *)

(** What a handler writes to its [http.ResponseWriter], in order: the calls
    of [sendError] (status code, the text before the error, the error that
    [fmt.Sprintf] prints after it), of [sendOK], and of [io.Copy]. *)
Inductive reply :=
  | SendError (code : nat) (text : string) (cause : option error)
  | SendOK (v : payload)
  | Copied (c : content).

Definition StatusBadRequest : nat := 400.
Definition StatusNotFound : nat := 404.
Definition StatusInternalServerError : nat := 500.

(** [handleLs]; [idArg] is [r.PathValue("id")]. *)
Definition handleLs (idArg : string) : M (list reply) :=
  let '(u, e) := Parse idArg in
  match e with
  | Some e => mret [SendError StatusBadRequest "parse id" (Some e)]
  | None =>
      '(ch, e) ← GetChildren u;
      match e with
      | Some e => mret [SendError StatusNotFound "file not found" (Some e)]
      | None => mret [SendOK (ChildrenPayload ch)]
      end
  end.

(** [handleCat] *)
Definition handleCat (idArg sectionArg : string) : M (list reply) :=
  let '(u, e) := Parse idArg in
  match e with
  | Some e => mret [SendError StatusBadRequest "parse id" (Some e)]
  | None =>
      '(sectionReader, e) ← OpenSection u sectionArg;
      match sectionReader, e with
      | _, Some e => mret [SendError StatusInternalServerError "open section" (Some e)]
      | None, None => crashes PanicNilDereference
      | Some f, None =>
          '(c, e) ← ReadAll f;
          match e with
          | Some e => mret [SendError StatusInternalServerError "io copy" (Some e)]
          | None => mret [Copied c; SendOK NoPayload]
          end
      end
  end.

(** [handleUpload]; [body] is what [r.Body] delivers. *)
Definition handleUpload (idArg sectionArg : string) (body : list byte) : M (list reply) :=
  let '(u, e) := Parse idArg in
  match e with
  | Some _ => mret [SendError StatusBadRequest "invalid id" None]
  | None =>
      '(sectionWriter, e) ← CreateSection u sectionArg;
      match sectionWriter, e with
      | _, Some e => mret [SendError StatusInternalServerError "create section" (Some e)]
      | None, None => crashes PanicNilDereference
      | Some f, None =>
          e ← WriteAll f body;
          match e with
          | Some e => mret [SendError StatusInternalServerError "io copy" (Some e)]
          | None => mret [SendOK NoPayload]
          end
      end
  end.

(** [handleTouch]; [fresh_id] is the value that [id.New()] draws. *)
Definition handleTouch (idArg name : string) (fresh_id : ID) : M (list reply) :=
  let '(parentID, e) := Parse idArg in
  match e with
  | Some e => mret [SendError StatusBadRequest "parse id" (Some e)]
  | None =>
      '(fileID, e) ← Touch parentID name fresh_id;
      match e with
      | Some e => mret [SendError StatusInternalServerError "touch" (Some e)]
      | None => mret [SendOK (NewFilePayload fileID)]
      end
  end.

(** [handleMkdir] *)
Definition handleMkdir (idArg name : string) (fresh_id : ID) : M (list reply) :=
  let '(u, e) := Parse idArg in
  match e with
  | Some e => mret [SendError StatusBadRequest "parse id" (Some e)]
  | None =>
      '(fileID, e) ← Mkdir u name fresh_id;
      match e with
      | Some e => mret [SendError StatusInternalServerError "mkdir" (Some e)]
      | None => mret [SendOK (NewDirPayload fileID)]
      end
  end.

(** [handleMount] *)
Definition handleMount (parentArg childArg : string) : M (list reply) :=
  let '(parentID, e) := Parse parentArg in
  match e with
  | Some e => mret [SendError StatusBadRequest "parse id" (Some e)]
  | None =>
      let '(childID, e) := Parse childArg in
      match e with
      | Some e => mret [SendError StatusBadRequest "parse id" (Some e)]
      | None =>
          e ← Mount parentID childID;
          match e with
          | Some e => mret [SendError StatusInternalServerError "parse id" (Some e)]
          | None => mret [SendOK NoPayload]
          end
      end
  end.

(** [handleUnmount]; [fuel] bounds the depth of the calls between [Unmount]
    and [deleteRecord]. *)
Definition handleUnmount (fuel : nat) (parentArg childArg : string) : M (list reply) :=
  let '(parentID, e) := Parse parentArg in
  match e with
  | Some e => mret [SendError StatusBadRequest "parse id" (Some e)]
  | None =>
      let '(childID, e) := Parse childArg in
      match e with
      | Some e => mret [SendError StatusBadRequest "parse id" (Some e)]
      | None =>
          e ← Unmount fuel parentID childID;
          match e with
          | Some e => mret [SendError StatusInternalServerError "parse id" (Some e)]
          | None => mret [SendOK NoPayload]
          end
      end
  end.

End Endpoints.

(** ** Stores and storage roots used as examples *)
Module Examples.
Import Id Fs.

Definition id_of_bytes (l : list N) : ID := mkID (ascii_of_N <$> l).

(** Identifiers of id_test.go and two more. *)
Definition idR : ID :=   (* "112drXXUifSrRnXLGbXg8E" *)
  id_of_bytes [0; 1; 2; 3; 4; 5; 6; 7; 8; 9; 10; 11; 12; 13; 14; 15].
Definition idC : ID :=   (* "WXC2BGKFiiDAjBWbf6wayV" *)
  id_of_bytes [239; 16; 32; 48; 64; 80; 96; 112; 128; 144; 160; 176; 192; 208; 224; 240].
Definition idP : ID :=   (* "YcVfxkQb6JRzqk5kF2tNLv" *)
  id_of_bytes [255; 255; 255; 255; 255; 255; 255; 255; 255; 255; 255; 255; 255; 255; 255; 255].
Definition idG : ID :=
  id_of_bytes [1; 2; 3; 4; 5; 6; 7; 8; 9; 10; 11; 12; 13; 14; 15; 16].
Definition idN : ID :=
  id_of_bytes [16; 15; 14; 13; 12; 11; 10; 9; 8; 7; 6; 5; 4; 3; 2; 1].

(** Two texts that [Parse] accepts although their values exceed 128 bits. *)
Definition s_max : string := "zzzzzzzzzzzzzzzzzzzzzz".
Definition s_max' : string := "zzzzzzzzzzzzzzzzzzzzzy".

Definition root_dir : string := "/data/files".

(** A storage root with the root record [idR], its child [idC] and the
    [data] section of the child. *)
Definition files0 : gmap string node :=
  {[ String idR := File (Document [String idC] true "");
     String idC := File (Document [] false "a.txt");
     String idC +:+ ".data" := File (Blob ["001"; "002"; "003"]%char) ]}.
Definition disk0 : OS := mkOS {[ root_dir := files0; "/" := ∅ ]} "/".

(** The store loaded from [disk0]. *)
Definition w0 : World := (NewFs idR root_dir disk0).2.

(** The storage root that [InitFsDir] sets up, [record{IsDir: true}] under
    the name of the root, and the store loaded from it. *)
Definition disk_init : OS :=
  mkOS {[ root_dir := {[ String idR := File (Document [] true "") ]}; "/" := ∅ ]} "/".
Definition w_init : World := (NewFs idR root_dir disk_init).2.

(** The same storage root with a foreign file, and with a directory. *)
Definition files_readme : gmap string node :=
  <["README" := File (Blob [])]> files0.
Definition disk_readme : OS := mkOS {[ root_dir := files_readme; "/" := ∅ ]} "/".
Definition files_subdir : gmap string node :=
  <[String idG := Dir true]> files0.
Definition disk_subdir : OS := mkOS {[ root_dir := files_subdir; "/" := ∅ ]} "/".

(** A store in which both invariants hold: [idR] has the child [idC], which
    has the child [idG]; every record but the root is referenced once. *)
Definition files_chain : gmap string node :=
  {[ String idR := File (Document [String idC] true "");
     String idC := File (Document [String idG] true "photos");
     String idG := File (Document [] false "a.jpg");
     String idG +:+ ".data" := File (Blob ["001"; "002"; "003"]%char) ]}.
Definition w_chain_in (working_dir : string) : World :=
  mkWorld
    (mkFs (mkRWMutex 0 false) {[ idR := 1%positive; idC := 2%positive; idG := 3%positive ]}
          idR root_dir)
    {[ 1%positive := mkRecord [idC] true "" idR 0 false;
       2%positive := mkRecord [idG] true "photos" idC 1 false;
       3%positive := mkRecord [] false "a.jpg" idG 1 false ]}
    (mkOS {[ root_dir := files_chain; "/" := ∅ ]} working_dir).
Definition w_chain : World := w_chain_in "/".

(** A store in which both invariants hold and [idC] is mounted under the
    two parents [idR] and [idP]. *)
Definition files_shared : gmap string node :=
  {[ String idR := File (Document [String idP; String idC] true "");
     String idP := File (Document [String idC] true "photos");
     String idC := File (Document [] false "a.jpg");
     String idC +:+ ".data" := File (Blob ["001"; "002"; "003"]%char) ]}.
Definition w_shared : World :=
  mkWorld
    (mkFs (mkRWMutex 0 false) {[ idR := 1%positive; idP := 2%positive; idC := 3%positive ]}
          idR root_dir)
    {[ 1%positive := mkRecord [idP; idC] true "" idR 0 false;
       2%positive := mkRecord [idC] true "photos" idP 1 false;
       3%positive := mkRecord [] false "a.jpg" idC 2 false ]}
    (mkOS {[ root_dir := files_shared; "/" := ∅ ]} "/").

End Examples.

(** ** Ways of looking at a world, for the statements below *)
Module Views.
Import Id Fs Sections.

(** A byte that is not in the alphabet. *)
Definition outside (c : byte) : bool := negb (bool_decide (c ∈ alphabet)).

(** The identifier under which [loadRecords] indexes the file [name]. *)
Definition key_of (name : string) : ID := (Parse name).1.

(** The entry [name] of the directory [d], if both exist. *)
Definition file_at (o : OS) (d name : string) : option node :=
  dir ← dirs o !! d; dir !! name.

(** [w'] differs from [w] at most in the lock and in files of the working
    directory of the process. *)
Definition kept_but_working_dir (w w' : World) : Prop :=
  records (the_fs w') = records (the_fs w) /\
  heap w' = heap w /\
  cwd (os w') = cwd (os w) /\
  forall d, d <> cwd (os w) -> dirs (os w') !! d = dirs (os w) !! d.

(** The world in which the section file of [u] and [section] holds [data],
    [dir] being the storage root before. *)
Definition with_section (u : ID) (section : string) (data : list byte)
    (dir : gmap string node) (w : World) : World :=
  set_os (mkOS (<[basePath (the_fs w) :=
                   <[sectionFileName u section := File (Blob data)]> dir]> (dirs (os w)))
               (cwd (os w))) w.

(** No two names of 22 characters in [dir] parse to one identifier. *)
Definition record_names_distinct (dir : gmap string node) : bool :=
  bool_decide (NoDup (key_of <$>
    List.filter (fun n => bool_decide (String.length n = 22%nat)) (map_to_list dir).*1)).

End Views.

(** ** More storage roots used as examples *)
Module MoreExamples.
Import Id Fs Examples.

(** A machine without the storage root. *)
Definition disk_missing : OS := mkOS {[ "/" := ∅ ]} "/".

(** A storage root whose one record file does not hold a document. *)
Definition files_undecodable : gmap string node :=
  {[ String idR := File (Blob ["{"%char]) ]}.
Definition disk_undecodable : OS :=
  mkOS {[ root_dir := files_undecodable; "/" := ∅ ]} "/".

End MoreExamples.

Import Id Fs Examples.

(** * Facts about the identifier codec *)
Section Codec.

Lemma table_check :
  forallb (fun k => (IndexByte b58table (table_at (N.of_nat k)) =? Z.of_nat k)%Z
                    && bool_decide (table_at (N.of_nat k) ∈ alphabet))
          (seq 0 58) = true.
Proof. vm_compute. reflexivity. Qed.

Lemma table_at_spec (i : N) :
  i < 58 -> IndexByte b58table (table_at i) = Z.of_N i /\ table_at i ∈ alphabet.
Proof.
  intros Hi.
  pose proof (proj1 (forallb_forall _ _) table_check (N.to_nat i)) as H.
  cbv beta in H. rewrite N2Nat.id in H.
  assert (Hin : In (N.to_nat i) (seq 0 58)) by (apply in_seq; lia).
  apply H in Hin. apply andb_prop in Hin as [H1 H2].
  apply Z.eqb_eq in H1. apply bool_decide_eq_true in H2.
  split; [lia | done].
Qed.

Lemma encode_loop_unfold n e :
  encode_loop n e = if N.eq_dec n 0 then e else encode_loop (n / 58) (e ++ [table_at (n mod 58)]).
Proof. rewrite encode_loop_equation_1. destruct (N.eq_dec n 0); reflexivity. Qed.

Lemma Bytes_unfold n :
  Bytes n = if N.eq_dec n 0 then [] else Bytes (n / 256) ++ [ascii_of_N (n mod 256)].
Proof. rewrite Bytes_equation_1. destruct (N.eq_dec n 0); reflexivity. Qed.

Lemma encode_loop_app n e : encode_loop n e = e ++ encode_loop n [].
Proof.
  revert e. induction n as [n IH] using (well_founded_induction N.lt_wf_0).
  intros e. rewrite (encode_loop_unfold n e), (encode_loop_unfold n []).
  destruct (N.eq_dec n 0) as [->|Hn]; [by rewrite app_nil_r|].
  assert (n / 58 < n) by (apply N.div_lt; lia).
  rewrite (IH (n / 58) H (e ++ _)), (IH (n / 58) H ([] ++ _)).
  by rewrite <- app_assoc.
Qed.

(** The digits that the first loop appends, least significant first. *)
Lemma encode_loop_length n k : n < 58 ^ N.of_nat k -> (length (encode_loop n []) <= k)%nat.
Proof.
  revert n. induction k as [|k IH]; intros n Hn.
  - rewrite encode_loop_unfold. destruct (N.eq_dec n 0); [simpl; lia|].
    simpl in Hn. lia.
  - rewrite encode_loop_unfold. destruct (N.eq_dec n 0); [simpl; lia|].
    rewrite encode_loop_app, length_app. simpl.
    assert (n / 58 < 58 ^ N.of_nat k).
    { apply N.Div0.div_lt_upper_bound.
      rewrite Nat2N.inj_succ, N.pow_succ_r' in Hn. lia. }
    specialize (IH _ H). lia.
Qed.

Lemma encode_loop_alphabet n : Forall (fun c => c ∈ alphabet) (encode_loop n []).
Proof.
  induction n as [n IH] using (well_founded_induction N.lt_wf_0).
  rewrite encode_loop_unfold. destruct (N.eq_dec n 0); [constructor|].
  rewrite encode_loop_app. simpl. constructor.
  - apply table_at_spec. apply N.mod_lt. lia.
  - apply IH. apply N.div_lt; lia.
Qed.

Lemma pad_loop_spec e :
  pad_loop e = e ++ replicate (strlen - length e) (table_at 0).
Proof.
  funelim (pad_loop e).
  - rewrite H. rewrite length_app. simpl length.
    rewrite <- app_assoc. f_equal.
    replace (strlen - length e)%nat with (S (strlen - (length e + 1)))%nat by lia.
    reflexivity.
  - replace (strlen - length e)%nat with 0%nat by lia. by rewrite app_nil_r.
Qed.

Lemma parse_loop_app l1 l2 acc :
  parse_loop (l1 ++ l2) acc =
  match parse_loop l1 acc with
  | inl r => parse_loop l2 r
  | inr b => inr b
  end.
Proof.
  revert acc. induction l1 as [|c l1 IH]; intros acc; [done|].
  simpl. destruct (_ =? _)%Z; [done | apply IH].
Qed.

Lemma parse_loop_digits n :
  parse_loop (reverse (encode_loop n [])) 0 = inl n.
Proof.
  induction n as [n IH] using (well_founded_induction N.lt_wf_0).
  rewrite encode_loop_unfold. destruct (N.eq_dec n 0) as [->|Hn]; [done|].
  rewrite encode_loop_app. cbn [app]. rewrite reverse_cons, parse_loop_app.
  rewrite IH by (apply N.div_lt; lia). cbn [parse_loop].
  destruct (table_at_spec (n mod 58)) as [-> _]; [apply N.mod_lt; lia|].
  destruct (Z.eqb_spec (Z.of_N (n mod 58)) (-1)) as [E|_].
  { pose proof (N2Z.is_nonneg (n mod 58)) as Hd. rewrite E in Hd. done. }
  rewrite N2Z.id. f_equal.
  rewrite N.mul_comm. symmetry. apply N.div_mod. lia.
Qed.


Lemma parse_loop_zeros k l :
  parse_loop (replicate k (table_at 0) ++ l) 0 = parse_loop l 0.
Proof. induction k as [|k IH]; [done|]. simpl. apply IH. Qed.


Lemma SetBytes_snoc bs b : SetBytes (bs ++ [b]) = SetBytes bs * 256 + N_of_ascii b.
Proof. unfold SetBytes. by rewrite fold_left_app. Qed.

Lemma SetBytes_bound bs : SetBytes bs < 256 ^ N.of_nat (length bs).
Proof.
  induction bs as [|b bs IH] using rev_ind; [done|].
  rewrite SetBytes_snoc, length_app. simpl length.
  replace (N.of_nat (length bs + 1)) with (N.succ (N.of_nat (length bs))) by lia.
  rewrite N.pow_succ_r'. pose proof (N_ascii_bounded b). lia.
Qed.

(** [Bytes] drops the leading zero bytes and nothing else. *)
Lemma Bytes_SetBytes bs :
  (length (Bytes (SetBytes bs)) <= length bs)%nat /\
  replicate (length bs - length (Bytes (SetBytes bs))) zero ++ Bytes (SetBytes bs) = bs.
Proof.
  induction bs as [|b bs [IHl IHe]] using rev_ind; [done|].
  rewrite SetBytes_snoc, Bytes_unfold, length_app. simpl length.
  pose proof (N_ascii_bounded b) as Hb.
  destruct (N.eq_dec _ 0) as [E|E].
  - assert (SetBytes bs = 0) as E1 by lia.
    assert (N_of_ascii b = 0) as E2 by lia.
    rewrite E1 in IHe. rewrite Bytes_unfold in IHe. simpl in IHe.
    rewrite app_nil_r in IHe. rewrite Nat.sub_0_r in IHe.
    simpl. split; [lia|]. rewrite app_nil_r, Nat.sub_0_r.
    replace (length bs + 1)%nat with (S (length bs)) by lia.
    rewrite replicate_S_end, IHe. f_equal. f_equal.
    rewrite <- (ascii_N_embedding b), E2. reflexivity.
  - replace ((SetBytes bs * 256 + N_of_ascii b) / 256) with (SetBytes bs).
    2:{ apply N.div_unique with (N_of_ascii b); lia. }
    replace ((SetBytes bs * 256 + N_of_ascii b) mod 256) with (N_of_ascii b).
    2:{ apply N.mod_unique with (SetBytes bs); lia. }
    rewrite ascii_N_embedding, length_app. simpl length. split; [lia|].
    rewrite app_assoc. f_equal.
    replace (length bs + 1 - (length (Bytes (SetBytes bs)) + 1))%nat
      with (length bs - length (Bytes (SetBytes bs)))%nat by lia.
    exact IHe.
Qed.

Lemma length_string_of_list_ascii l : String.length (string_of_list_ascii l) = length l.
Proof. induction l; simpl; congruence. Qed.

Lemma pow58_22 : 256 ^ 16 < 58 ^ 22.
Proof. reflexivity. Qed.

(** C2: for every identifier of sixteen bytes, [String] yields exactly 22
    characters, all of the 58-symbol alphabet, and [Parse] of that text
    succeeds and gives the identifier back. *)
Theorem String_Parse_roundtrip (v : ID) :
  wf_ID v ->
  String.length (String v) = 22%nat /\
  Forall (fun c => c ∈ alphabet) (list_ascii_of_string (String v)) /\
  Parse (String v) = (v, None).
Proof.
  intros Hv. unfold wf_ID in Hv. unfold String. cbv zeta.
  set (n := SetBytes (value v)).
  assert (Hn : n < 58 ^ 22).
  { pose proof (SetBytes_bound (value v)) as H. rewrite Hv in H.
    eapply N.lt_trans; [exact H | exact pow58_22]. }
  pose proof (encode_loop_length n 22 Hn) as Hlen.
  rewrite pad_loop_spec, reverse_app, reverse_replicate.
  set (k := (strlen - length (encode_loop n []))%nat).
  assert (Hk : (k + length (encode_loop n []) = 22)%nat) by (unfold k, strlen; lia).
  split; [|split].
  - rewrite length_string_of_list_ascii, length_app, length_replicate, length_reverse.
    exact Hk.
  - rewrite list_ascii_of_string_of_list_ascii. apply Forall_app. split.
    + apply Forall_replicate. apply table_at_spec. lia.
    + apply Forall_reverse. apply encode_loop_alphabet.
  - unfold Parse.
    rewrite length_string_of_list_ascii, length_app, length_replicate, length_reverse, Hk.
    rewrite decide_False by (unfold strlen; lia).
    rewrite list_ascii_of_string_of_list_ascii, parse_loop_zeros, parse_loop_digits.
    cbv zeta. subst n.
    destruct (Bytes_SetBytes (value v)) as [Hl He]. rewrite Hv in Hl, He.
    assert (Hpad : Z.to_nat (16 - Z.of_nat (length (Bytes (SetBytes (value v))))) =
                   (16 - length (Bytes (SetBytes (value v))))%nat) by lia.
    destruct (Z.ltb_spec 0 (16 - Z.of_nat (length (Bytes (SetBytes (value v)))))) as [Hp|Hp].
    + rewrite Hpad, He. unfold copy. destruct v as [bs]. simpl in *.
      rewrite Hv. f_equal. f_equal.
      rewrite take_ge by lia. simpl. by rewrite app_nil_r.
    + assert (length (Bytes (SetBytes (value v))) = 16%nat) as E by lia.
      rewrite E in He. simpl in He. rewrite He.
      unfold copy. destruct v as [bs]. simpl in *.
      rewrite Hv. f_equal. f_equal.
      rewrite take_ge by lia. simpl. by rewrite app_nil_r.
Qed.

Lemma IndexByte_elem s c : c ∈ list_ascii_of_string s -> (0 <= IndexByte s c)%Z.
Proof.
  induction s as [|a s IH]; simpl; [by intros ?%elem_of_nil|].
  intros [->|Hin]%elem_of_cons.
  - by rewrite Ascii.eqb_refl.
  - destruct (Ascii.eqb a c); [done|]. specialize (IH Hin).
    destruct (IndexByte s c); lia.
Qed.

Lemma parse_loop_accepts l acc :
  Forall (fun c => c ∈ alphabet) l -> exists n, parse_loop l acc = inl n.
Proof.
  intros H. revert acc. induction H as [|c l Hc _ IH]; intros acc; [by eexists|].
  cbn [parse_loop]. apply IndexByte_elem in Hc.
  destruct (Z.eqb_spec (IndexByte b58table c) (-1)); [lia|]. apply IH.
Qed.

Lemma length_copy dst src : length (copy dst src) = length dst.
Proof. unfold copy. rewrite length_app, length_take, length_drop. lia. Qed.

Lemma Bytes_length_lower n k : 256 ^ N.of_nat k <= n -> (k < length (Bytes n))%nat.
Proof.
  revert n. induction k as [|k IH]; intros n Hn.
  - rewrite Bytes_unfold. destruct (N.eq_dec n 0) as [->|_]; [simpl in Hn; lia|].
    rewrite length_app. simpl. lia.
  - rewrite Nat2N.inj_succ, N.pow_succ_r' in Hn.
    rewrite Bytes_unfold. destruct (N.eq_dec n 0) as [->|_]; [lia|].
    rewrite length_app. simpl.
    assert (256 ^ N.of_nat k <= n / 256).
    { apply N.div_le_lower_bound; lia. }
    specialize (IH _ H). lia.
Qed.


(** The texts of the identifiers of id_test.go; the second one is the name
    that the comment of [InitFsDir] shows in the storage root. *)
Example String_examples :
  String idR = "112drXXUifSrRnXLGbXg8E" /\
  String idC = "WXC2BGKFiiDAjBWbf6wayV" /\
  String idP = "YcVfxkQb6JRzqk5kF2tNLv" /\
  String zeroID = "1111111111111111111111".
Proof. repeat split; vm_compute; reflexivity. Qed.

(** C2 at the all-one and at the all-zero identifier. *)
Lemma String_Parse_roundtrip_witness :
  (wf_ID idP /\
   String.length (String idP) = 22%nat /\
   Forall (fun c => c ∈ alphabet) (list_ascii_of_string (String idP)) /\
   Parse (String idP) = (idP, None)) /\
  (wf_ID zeroID /\
   String.length (String zeroID) = 22%nat /\
   Forall (fun c => c ∈ alphabet) (list_ascii_of_string (String zeroID)) /\
   Parse (String zeroID) = (zeroID, None)).
Proof.
  split.
  - split; [reflexivity | apply (String_Parse_roundtrip idP); reflexivity].
  - split; [reflexivity | apply (String_Parse_roundtrip zeroID); reflexivity].
Defined.

(** C10: [Parse] accepts every text of 22 alphabet characters; when the text
    denotes 2^128 or more, the identifier is made of the first sixteen of
    the seventeen bytes of that number; so two different accepted texts
    parse to one identifier, and [String] does not give back the text. *)
Theorem Parse_not_injective :
  (forall s, String.length s = 22%nat ->
             Forall (fun c => c ∈ alphabet) (list_ascii_of_string s) ->
             exists u, Parse s = (u, None) /\ wf_ID u) /\
  (forall s n, String.length s = 22%nat ->
               parse_loop (list_ascii_of_string s) 0 = inl n -> 2 ^ 128 <= n ->
               Parse s = (mkID (take 16 (Bytes n)), None)) /\
  (parse_loop (list_ascii_of_string s_max) 0 = inl (58 ^ 22 - 1) /\ 2 ^ 128 <= 58 ^ 22 - 1) /\
  (s_max <> s_max' /\ Parse s_max = Parse s_max' /\ snd (Parse s_max) = None) /\
  String (fst (Parse s_max)) <> s_max.
Proof.
  split; [|split; [|split; [|split]]].
  - intros s Hlen Hs. unfold Parse.
    rewrite decide_False by (rewrite Hlen; unfold strlen; lia).
    destruct (parse_loop_accepts _ 0 Hs) as [n ->]. cbv zeta.
    eexists. split; [reflexivity|]. unfold wf_ID. cbn [value].
    rewrite length_copy. reflexivity.
  - intros s n Hlen Hp Hn. unfold Parse.
    rewrite decide_False by (rewrite Hlen; unfold strlen; lia).
    rewrite Hp. cbv zeta.
    pose proof (Bytes_length_lower n 16 Hn) as Hl.
    destruct (Z.ltb_spec 0 (16 - Z.of_nat (length (Bytes n)))); [lia|].
    unfold copy. cbn [value zeroID]. rewrite length_replicate.
    rewrite drop_ge by (rewrite length_replicate; lia). by rewrite app_nil_r.
  - split; [vm_compute; reflexivity | vm_compute; discriminate].
  - split; [discriminate|]. split; vm_compute; reflexivity.
  - vm_compute. discriminate.
Qed.

(** C10 at the text of 22 letters z, the largest that [Parse] accepts. *)
Lemma Parse_not_injective_witness :
  (String.length s_max = 22%nat /\
   Forall (fun c => c ∈ alphabet) (list_ascii_of_string s_max) /\
   exists u, Parse s_max = (u, None) /\ wf_ID u) /\
  (parse_loop (list_ascii_of_string s_max) 0 = inl (58 ^ 22 - 1) /\
   2 ^ 128 <= 58 ^ 22 - 1 /\
   Parse s_max = (mkID (take 16 (Bytes (58 ^ 22 - 1))), None)).
Proof.
  destruct Parse_not_injective as (Haccept & Htrunc & _).
  split.
  - assert (Hlen : String.length s_max = 22%nat) by reflexivity.
    assert (Hal : Forall (fun c => c ∈ alphabet) (list_ascii_of_string s_max)).
    { apply (bool_decide_unpack _). vm_compute. exact I. }
    split; [exact Hlen|]. split; [exact Hal|]. exact (Haccept s_max Hlen Hal).
  - assert (Hlen : String.length s_max = 22%nat) by reflexivity.
    assert (Hp : parse_loop (list_ascii_of_string s_max) 0 = inl (58 ^ 22 - 1))
      by (vm_compute; reflexivity).
    assert (Hn : 2 ^ 128 <= 58 ^ 22 - 1) by (vm_compute; discriminate).
    split; [exact Hp|]. split; [exact Hn|]. exact (Htrunc s_max _ Hlen Hp Hn).
Defined.

End Codec.

(** * Facts about the record store *)
Section Store.

Lemma bind_run {A B} (m : M A) (f : A -> M B) w :
  (m ≫= f) w = match m w with
               | (Return a, w') => f a w'
               | (Crash c, w') => (Crash c, w')
               | (OutOfFuel, w') => (OutOfFuel, w')
               end.
Proof. reflexivity. Qed.


(** The test of [record] is the wrong way round: an identifier that is in
    the index is reported as missing, one that is not yields [nil] without
    an error.  No call yields a record. *)
Lemma record_lookup_inverted u w :
  record_lookup u w =
  (Return (None, if bool_decide (is_Some (records (the_fs w) !! u))
                 then Some ErrIdDoesntExist else None), w).
Proof.
  unfold record_lookup. rewrite bind_run. cbn [get].
  destruct (records (the_fs w) !! u) as [l|] eqn:E.
  - rewrite bool_decide_eq_true_2 by eauto. reflexivity.
  - rewrite bool_decide_eq_false_2 by (intros [? ?]; done). reflexivity.
Qed.

(** [record] takes the read lock and releases the write lock: no call
    returns. *)
Lemma Fs_record_crashes u w :
  Fs_record u w =
  if writer (lock (the_fs w)) then (Crash Blocked, w)
  else (Crash FatalRWMutexUnlock, after_RLock w).
Proof.
  unfold Fs_record. rewrite bind_run. unfold RLock.
  destruct (writer (lock (the_fs w))) eqn:E; [reflexivity|].
  unfold defer. rewrite record_lookup_inverted. reflexivity.
Qed.

Lemma same_store_after_RLock w : same_store w (after_RLock w).
Proof. done. Qed.


Lemma Touch_crashes parentID name fresh w :
  Touch parentID name fresh w =
  if writer (lock (the_fs w)) then (Crash Blocked, w)
  else (Crash FatalRWMutexUnlock, after_RLock w).
Proof. unfold Touch. rewrite bind_run, Fs_record_crashes. by destruct (writer _). Qed.

Lemma Mkdir_crashes parentID name fresh w :
  Mkdir parentID name fresh w =
  if writer (lock (the_fs w)) then (Crash Blocked, w)
  else (Crash FatalRWMutexUnlock, after_RLock w).
Proof. unfold Mkdir. rewrite bind_run, Fs_record_crashes. by destruct (writer _). Qed.

Lemma Mount_crashes parent child w :
  Mount parent child w =
  if writer (lock (the_fs w)) then (Crash Blocked, w)
  else (Crash FatalRWMutexUnlock, after_RLock w).
Proof. unfold Mount. rewrite bind_run, Fs_record_crashes. by destruct (writer _). Qed.

Lemma Unmount_crashes fuel parent child w :
  Unmount (S fuel) parent child w =
  if writer (lock (the_fs w)) then (Crash Blocked, w)
  else (Crash FatalRWMutexUnlock, after_RLock w).
Proof. cbn [Unmount]. rewrite bind_run, Fs_record_crashes. by destruct (writer _). Qed.

(** removeID *)
Lemma removeID_find_spec rest v i0 :
  let '(i, pos) := removeID_find rest v i0 in
  (pos = (-1)%Z /\ (v ∉ rest) /\ i = (i0 + length rest)%nat) \/
  (pos = Z.of_nat i /\ (i0 <= i)%nat /\ (rest !! (i - i0)%nat) = Some v).
Proof.
  revert i0. induction rest as [|x rest IH]; intros i0; simpl.
  - left. split; [done|]. split; [apply not_elem_of_nil | lia].
  - destruct (decide (x = v)) as [->|Hne].
    + rewrite bool_decide_eq_true_2 by done.
      right. rewrite Nat.sub_diag. done.
    + rewrite bool_decide_eq_false_2 by done.
      specialize (IH (S i0)). destruct (removeID_find rest v (S i0)) as [i pos].
      destruct IH as [(-> & Hn & ->)|(-> & Hle & Hl)].
      * left. split; [done|]. split; [|lia].
        rewrite elem_of_cons. intros [?|?]; [congruence | done].
      * right. split; [done|]. split; [lia|].
        replace (i - i0)%nat with (S (i - S i0)) by lia. done.
Qed.

Lemma removeID_again_spec rest v : removeID_again rest v = bool_decide (v ∈ rest).
Proof.
  induction rest as [|x rest IH]; simpl; [done|].
  destruct (decide (x = v)) as [->|Hne].
  - rewrite bool_decide_eq_true_2 by done.
    symmetry. apply bool_decide_eq_true_2. by left.
  - rewrite (bool_decide_eq_false_2 (x = v)) by done. rewrite IH.
    apply bool_decide_ext. rewrite elem_of_cons.
    split; [by right | intros [?|?]; [congruence | done]].
Qed.

(** After the [break], the second loop of [removeID] starts at the very
    index where [v] was found, so it reports a duplicate whenever [v] is in
    the slice; the slice is never shortened. *)
Lemma removeID_never_succeeds s v :
  removeID s v = (s, Some (if bool_decide (v ∈ s) then ErrDupliciteId else ErrIdNotFound)).
Proof.
  unfold removeID. pose proof (removeID_find_spec s v 0) as H.
  destruct (removeID_find s v 0) as [i pos].
  rewrite removeID_again_spec.
  destruct H as [(-> & Hn & ->)|(-> & _ & Hl)].
  - rewrite Nat.add_0_l, drop_all. rewrite (bool_decide_eq_false_2 (v ∈ [])) by apply not_elem_of_nil.
    simpl. by rewrite bool_decide_eq_false_2.
  - rewrite Nat.sub_0_r in Hl.
    assert (v ∈ drop i s).
    { apply list_elem_of_lookup. exists 0%nat. rewrite lookup_drop. by rewrite Nat.add_0_r. }
    assert (v ∈ s) by (eapply list_elem_of_lookup_2; done).
    by rewrite !bool_decide_eq_true_2.
Qed.

(** [GetChildren] has no error path: it returns the children of an indexed
    record and dereferences [nil] otherwise. *)
Lemma GetChildren_run u w :
  GetChildren u w =
  match record_of w u with
  | Some r => (Return (Children r, None), w)
  | None => (Crash PanicNilDereference, w)
  end.
Proof.
  unfold GetChildren, record_of. rewrite bind_run. cbn [get]. rewrite bind_run.
  unfold deref. destruct (records (the_fs w) !! u) as [l|]; [|done].
  simpl. destruct (heap w !! l); done.
Qed.


Lemma json_decode_fresh c r : json_decode c = (r, None) -> unreferenced r.
Proof.
  unfold json_decode. destruct c as [chs d n|b]; [|done].
  destruct (decode_children chs) as [us [e|]]; [done|].
  intros [= <-]. done.
Qed.

Lemma loadRecords_read_spec names w :
  map_Forall (fun _ r => unreferenced r) (heap w) ->
  exists err w', loadRecords_read names w = (Return err, w') /\
    map_Forall (fun _ r => unreferenced r) (heap w') /\
    os w' = os w.
Proof.
  revert w. induction names as [|name names IH]; intros w Hw.
  { exists None, w. done. }
  cbn [loadRecords_read].
  destruct (Parse name) as [u [e|]]; [by exists (Some e), w|].
  rewrite bind_run. cbn [get].
  destruct (ReadFile (os w) (basePath (the_fs w)) name) as [f [e|]];
    [by exists (Some e), w|].
  rewrite bind_run. unfold new at 1.
  set (l := fresh (dom (heap w))).
  set (w1 := set_heap _ w).
  assert (H1 : map_Forall (fun _ r => unreferenced r) (heap w1)).
  { apply map_Forall_insert_2; done. }
  destruct (json_decode f) as [decoded [e|]] eqn:Ed; [by exists (Some ErrJsonDecode), w1|].
  rewrite bind_run. unfold assign. rewrite bind_run. unfold deref.
  replace (heap w1 !! l) with (Some (mkRecord [] false "" zeroID 0 false))
    by (symmetry; apply lookup_insert_eq).
  unfold modify at 1. rewrite bind_run. unfold index_store, modify.
  match goal with |- context [loadRecords_read names ?w2] => set (w2' := w2) end.
  destruct (IH w2') as (err & w' & -> & Hf & Ho).
  { apply map_Forall_insert_2; [eapply json_decode_fresh; done | done]. }
  exists err, w'. split; [done|]. split; [done|]. rewrite Ho. done.
Qed.


Lemma loadRecords_scan_garbage entries acc :
  Exists (fun e => is_garbage e = true) entries ->
  exists rf err, loadRecords_scan entries acc = (rf, Some err) /\ is_Corrupt err = true.
Proof.
  intros H. revert acc. induction H as [e es He|e es He IH]; intros acc; cbn [loadRecords_scan].
  - unfold is_garbage in He. destruct (is_dir (snd e)); [by eexists _, _|].
    simpl in He. rewrite He. by eexists _, _.
  - destruct (is_dir (snd e)); [by eexists _, _|].
    destruct (negb _); [by eexists _, _|]. apply IH.
Qed.

Lemma ReadDir_elem o d dir name nd :
  dirs o !! d = Some dir -> dir !! name = Some nd ->
  exists entries, ReadDir o d = (entries, None) /\ (name, nd) ∈ entries.
Proof.
  intros Hd Hn. unfold ReadDir. rewrite Hd. eexists. split; [done|].
  rewrite merge_sort_Permutation. by apply elem_of_map_to_list.
Qed.

Lemma loadRecords_run w :
  loadRecords w =
  match ReadDir (os w) (basePath (the_fs w)) with
  | (_, Some e) => (Return (Some e), w)
  | (entries, None) =>
      match loadRecords_scan entries [] with
      | (_, Some e) => (Return (Some e), w)
      | (recordFiles, None) => loadRecords_read recordFiles w
      end
  end.
Proof.
  unfold loadRecords. rewrite bind_run. cbn [get].
  destruct (ReadDir _ _) as [entries [e|]]; [done|].
  destruct (loadRecords_scan _ _) as [rf [e|]]; done.
Qed.

(** C9: when the storage root holds a directory, or a file whose name does
    not match the pattern of record and section files, [NewFs] returns one
    of the two "garbage" errors (class Corrupt in the specification) and the
    [Fs] it returns has loaded no record; when the load succeeds and the
    configured root is not among the loaded records, [NewFs] returns the
    error "the root ID not found in fs". *)
Theorem NewFs_rejects_garbage_and_missing_root (root : ID) (basePath : string) (o : OS) :
  (forall dir name nd,
     dirs o !! basePath = Some dir -> dir !! name = Some nd ->
     is_garbage (name, nd) = true ->
     exists e, NewFs root basePath o = (Return (Some e), empty_world root basePath o)
               /\ is_Corrupt e = true) /\
  (forall w,
     loadRecords (empty_world root basePath o) = (Return None, w) ->
     records (the_fs w) !! root = None ->
     NewFs root basePath o = (Return (Some ErrRootNotFound), w)).
Proof.
  split.
  - intros dir name nd Hd Hn Hg.
    destruct (ReadDir_elem o basePath dir name nd Hd Hn) as (entries & Hr & Hin).
    destruct (loadRecords_scan_garbage entries []) as (rf & err & Hs & Hc).
    { apply Exists_exists. eauto. }
    exists err. split; [|done].
    unfold NewFs. rewrite bind_run, loadRecords_run. cbn [os empty_world the_fs Fs.basePath].
    rewrite Hr, Hs. reflexivity.
  - intros w Hl Hroot. unfold NewFs. rewrite bind_run, Hl, bind_run. cbn [get].
    rewrite Hroot. reflexivity.
Qed.

(** Whatever the storage root holds, every record that [NewFs] loads has
    the reference count 0 and the zero identifier: neither field is in the
    document, and [loadRecords] sets neither. *)
Lemma NewFs_leaves_records_unreferenced root basePath o err w :
  NewFs root basePath o = (Return err, w) ->
  forall u r, record_of w u = Some r -> refs r = 0 /\ id r = zeroID.
Proof.
  unfold NewFs. rewrite bind_run, loadRecords_run.
  cbn [os empty_world the_fs Fs.basePath].
  intros H.
  assert (Hh : map_Forall (fun _ r => unreferenced r) (heap w)).
  { destruct (ReadDir o basePath) as [entries [e|]].
    { injection H as _ <-. apply map_Forall_empty. }
    destruct (loadRecords_scan entries []) as [rf [e|]].
    { injection H as _ <-. apply map_Forall_empty. }
    destruct (loadRecords_read_spec rf (empty_world root basePath o)) as (err' & w' & Hr & Hf & _).
    { apply map_Forall_empty. }
    fold (empty_world root basePath o) in H. rewrite Hr in H.
    destruct err' as [e|].
    - injection H as _ <-. done.
    - rewrite bind_run in H. cbn [get] in H.
      destruct (negb _); injection H as _ <-; done. }
  intros u r. unfold record_of. destruct (records (the_fs w) !! u) as [l|]; [|done].
  simpl. intros Hl. apply (Hh l r Hl).
Qed.

(** C9 at the storage root with a file README, at the one with a
    directory, and at the sound storage root loaded with a root identifier
    that has no record file. *)
Lemma NewFs_rejects_garbage_and_missing_root_witness :
  (dirs disk_readme !! root_dir = Some files_readme /\
   files_readme !! "README" = Some (File (Blob [])) /\
   is_garbage ("README", File (Blob [])) = true /\
   exists e, NewFs idR root_dir disk_readme
             = (Return (Some e), empty_world idR root_dir disk_readme)
             /\ is_Corrupt e = true) /\
  (dirs disk_subdir !! root_dir = Some files_subdir /\
   files_subdir !! String idG = Some (Dir true) /\
   is_garbage (String idG, Dir true) = true /\
   exists e, NewFs idR root_dir disk_subdir
             = (Return (Some e), empty_world idR root_dir disk_subdir)
             /\ is_Corrupt e = true) /\
  (loadRecords (empty_world idP root_dir disk0) = (Return None, (NewFs idP root_dir disk0).2) /\
   records (the_fs (NewFs idP root_dir disk0).2) !! idP = None /\
   NewFs idP root_dir disk0 = (Return (Some ErrRootNotFound), (NewFs idP root_dir disk0).2)).
Proof.
  split; [|split].
  - assert (H1 : dirs disk_readme !! root_dir = Some files_readme) by (vm_compute; reflexivity).
    assert (H2 : files_readme !! "README" = Some (File (Blob []))) by (vm_compute; reflexivity).
    assert (H3 : is_garbage ("README", File (Blob [])) = true) by (vm_compute; reflexivity).
    split; [exact H1|]. split; [exact H2|]. split; [exact H3|].
    exact (proj1 (NewFs_rejects_garbage_and_missing_root idR root_dir disk_readme)
                 files_readme "README" (File (Blob [])) H1 H2 H3).
  - assert (H1 : dirs disk_subdir !! root_dir = Some files_subdir) by (vm_compute; reflexivity).
    assert (H2 : files_subdir !! String idG = Some (Dir true)) by (vm_compute; reflexivity).
    assert (H3 : is_garbage (String idG, Dir true) = true) by (vm_compute; reflexivity).
    split; [exact H1|]. split; [exact H2|]. split; [exact H3|].
    exact (proj1 (NewFs_rejects_garbage_and_missing_root idR root_dir disk_subdir)
                 files_subdir (String idG) (Dir true) H1 H2 H3).
  - assert (H1 : loadRecords (empty_world idP root_dir disk0)
                 = (Return None, (NewFs idP root_dir disk0).2)) by (vm_compute; reflexivity).
    assert (H2 : records (the_fs (NewFs idP root_dir disk0).2) !! idP = None)
      by (vm_compute; reflexivity).
    split; [exact H1|]. split; [exact H2|].
    exact (proj2 (NewFs_rejects_garbage_and_missing_root idP root_dir disk0) _ H1 H2).
Defined.

(** C1 (the code departs from it): a freshly loaded store already breaks
    invariant (a).  In the store loaded from [disk0] the record [idC] has
    the one parent [idR] and the reference count 0.  In the store loaded
    from the storage root of [InitFsDir] the invariant holds, and
    [newRecord], run with the [nil] parent that the lookup of [record]
    yields, leaves a record with the reference count 1 and no parent. *)
Theorem load_leaves_refcounts_at_zero :
  NewFs idR root_dir disk0 = (Return None, w0) /\
  parents_of w0 idC = [idR] /\
  refs <$> record_of w0 idC = Some 0 /\
  refcounts_match w0 = false /\
  (NewFs idR root_dir disk_init).1 = Return None /\
  refcounts_match w_init = true /\
  (let w := (newRecord None "a.txt" false idN w_init).2 in
   parents_of w idN = [] /\
   refs <$> record_of w idN = Some 1 /\
   refcounts_match w = false).
Proof. repeat split; vm_compute; reflexivity. Qed.

(** C3 (the code departs from it): [Unmount] never returns, whatever the
    store; in the store [w_chain], where [idC] is referenced once, the call
    that should delete [idC] stops in [record] and leaves the index, the
    records and the files as they were.  [deleteRecord] itself, run on the
    leaf [idG], removes no file of the storage root when the process works
    in another directory, and keeps [idG] in the index when it works in the
    storage root, so that [GetChildren] still answers. *)
Theorem Unmount_to_zero_deletes_nothing :
  (forall fuel parentID childID w,
     Unmount (S fuel) parentID childID w =
     if writer (lock (the_fs w)) then (Crash Blocked, w)
     else (Crash FatalRWMutexUnlock, after_RLock w)) /\
  refcounts_match w_chain = true /\
  Unmount 3 idR idC w_chain = (Crash FatalRWMutexUnlock, after_RLock w_chain) /\
  record_lookup idR w_chain = (Return (None, Some ErrIdDoesntExist), w_chain) /\
  same_store w_chain (after_RLock w_chain) /\
  (GetChildren idC (after_RLock w_chain)).1 = Return ([idG], None) /\
  deleteRecord 3 (records (the_fs w_chain) !! idG) w_chain
    = (Return (Some (ErrOS ENOENT)), w_chain) /\
  (let w' := (deleteRecord 3 (records (the_fs (w_chain_in root_dir)) !! idG)
                           (w_chain_in root_dir)).2 in
   records (the_fs w') !! idG = Some 3%positive /\
   (GetChildren idG w').1 = Return ([], None)).
Proof.
  split; [intros; apply Unmount_crashes|].
  split; [vm_compute; reflexivity|].
  split; [rewrite Unmount_crashes; reflexivity|].
  split; [rewrite record_lookup_inverted; reflexivity|].
  split; [apply same_store_after_RLock|].
  repeat split; vm_compute; reflexivity.
Qed.

(** C4 (the code departs from it): [removeID] returns an error for every
    slice and identifier, so no [Unmount] can take a child out of a
    children list; in the store [w_shared], where [idC] is referenced by
    [idR] and [idP], [Unmount idR idC] does not return, [idC] stays among
    the children of [idR] and its reference count stays 2. *)
Theorem Unmount_of_shared_child_fails :
  (forall s v,
     removeID s v
     = (s, Some (if bool_decide (v ∈ s) then ErrDupliciteId else ErrIdNotFound))) /\
  refcounts_match w_shared = true /\
  Unmount 3 idR idC w_shared = (Crash FatalRWMutexUnlock, after_RLock w_shared) /\
  record_lookup idR w_shared = (Return (None, Some ErrIdDoesntExist), w_shared) /\
  (GetChildren idR (after_RLock w_shared)).1 = Return ([idP; idC], None) /\
  refs <$> record_of (after_RLock w_shared) idC = Some 2 /\
  removeID [idP; idC] idC = ([idP; idC], Some ErrDupliciteId).
Proof.
  split; [apply removeID_never_succeeds|].
  split; [vm_compute; reflexivity|].
  split; [rewrite Unmount_crashes; reflexivity|].
  split; [rewrite record_lookup_inverted; reflexivity|].
  repeat split; vm_compute; reflexivity.
Qed.

(** C5 (the code departs from it): neither [Touch] nor [Mkdir] ever
    returns an identifier; under the existing parent [idR] of the loaded
    store [w0] both stop in [record], whose lookup reports [idR] as
    missing, and the store holds no new record. *)
Theorem createChild_never_returns :
  (forall parentID name fresh_id w,
     Touch parentID name fresh_id w =
       (if writer (lock (the_fs w)) then (Crash Blocked, w)
        else (Crash FatalRWMutexUnlock, after_RLock w)) /\
     Mkdir parentID name fresh_id w =
       (if writer (lock (the_fs w)) then (Crash Blocked, w)
        else (Crash FatalRWMutexUnlock, after_RLock w))) /\
  (GetChildren idR w0).1 = Return ([idC], None) /\
  Touch idR "a.txt" idN w0 = (Crash FatalRWMutexUnlock, after_RLock w0) /\
  Mkdir idR "photos" idN w0 = (Crash FatalRWMutexUnlock, after_RLock w0) /\
  record_lookup idR w0 = (Return (None, Some ErrIdDoesntExist), w0) /\
  (GetChildren idR (after_RLock w0)).1 = Return ([idC], None) /\
  record_of (after_RLock w0) idN = None.
Proof.
  split; [intros; split; [apply Touch_crashes | apply Mkdir_crashes]|].
  split; [vm_compute; reflexivity|].
  split; [rewrite Touch_crashes; reflexivity|].
  split; [rewrite Mkdir_crashes; reflexivity|].
  repeat split; vm_compute; reflexivity.
Qed.

(** C6 (the code departs from it): for the parent [idP], which the loaded
    store [w0] does not hold, [Touch] and [Mkdir] do not return an error:
    they stop in [record]; the lookup of [record] yields [nil] with no
    error for [idP], and [newRecord] run with that [nil] parent puts the new
    record into the index before it dereferences the parent. *)
Theorem createChild_missing_parent_crashes :
  record_of w0 idP = None /\
  Touch idP "a.txt" idN w0 = (Crash FatalRWMutexUnlock, after_RLock w0) /\
  Mkdir idP "photos" idN w0 = (Crash FatalRWMutexUnlock, after_RLock w0) /\
  record_lookup idP w0 = (Return (None, None), w0) /\
  (newRecord None "a.txt" false idN w0).1 = Crash PanicNilDereference /\
  refs <$> record_of (newRecord None "a.txt" false idN w0).2 idN = Some 1.
Proof.
  split; [vm_compute; reflexivity|].
  split; [rewrite Touch_crashes; reflexivity|].
  split; [rewrite Mkdir_crashes; reflexivity|].
  repeat split; vm_compute; reflexivity.
Qed.

(** C7 (the code departs from it): [Mount] never returns; for the pair
    [idR], [idC] of the loaded store [w0], where [idC] is already a child
    of [idR], it stops in the first [record] call, whose lookup would
    report "id doesn't exist" for the existing [idC]; the error "child with
    this id already exists" is out of reach. *)
Theorem Mount_of_mounted_child_crashes :
  (forall parent newChild w,
     Mount parent newChild w =
     if writer (lock (the_fs w)) then (Crash Blocked, w)
     else (Crash FatalRWMutexUnlock, after_RLock w)) /\
  (GetChildren idR w0).1 = Return ([idC], None) /\
  (GetChildren idC w0).1 = Return ([], None) /\
  Mount idR idC w0 = (Crash FatalRWMutexUnlock, after_RLock w0) /\
  record_lookup idC w0 = (Return (None, Some ErrIdDoesntExist), w0).
Proof.
  split; [intros; apply Mount_crashes|].
  split; [vm_compute; reflexivity|].
  split; [vm_compute; reflexivity|].
  split; [rewrite Mount_crashes; reflexivity|].
  vm_compute; reflexivity.
Qed.

(** C8 (the code departs from it): [GetChildren] returns the children of
    an identifier that is in the index, and for one that is not it
    dereferences the [nil] pointer that the map yields: a run-time panic,
    never an error value. *)
Theorem GetChildren_of_missing_identifier_panics :
  (forall u w,
     GetChildren u w =
     match record_of w u with
     | Some r => (Return (Children r, None), w)
     | None => (Crash PanicNilDereference, w)
     end) /\
  GetChildren idR w0 = (Return ([idC], None), w0) /\
  records (the_fs w0) !! idP = None /\
  GetChildren idP w0 = (Crash PanicNilDereference, w0).
Proof.
  split; [apply GetChildren_run|].
  split; [rewrite GetChildren_run; vm_compute; reflexivity|].
  split; [vm_compute; reflexivity|].
  rewrite GetChildren_run; vm_compute; reflexivity.
Qed.

End Store.

Import Sections Endpoints Views MoreExamples.

(** * More facts about the identifier codec *)
Section CodecMore.

Lemma IndexByte_not_elem s c : c ∉ list_ascii_of_string s -> IndexByte s c = (-1)%Z.
Proof.
  induction s as [|a s IH]; simpl; [done|].
  rewrite not_elem_of_cons. intros [Hne Hn].
  destruct (Ascii.eqb_spec a c); [congruence|]. by rewrite IH.
Qed.

Lemma IndexByte_bound s c :
  c ∈ list_ascii_of_string s -> (0 <= IndexByte s c < Z.of_nat (String.length s))%Z.
Proof.
  induction s as [|a s IH]; simpl String.length; simpl list_ascii_of_string;
    [by intros ?%elem_of_nil|].
  intros Hin. cbn [IndexByte]. destruct (Ascii.eqb_spec a c) as [->|Hne]; [lia|].
  apply elem_of_cons in Hin as [->|Hin]; [done|].
  specialize (IH Hin). destruct (IndexByte s c); lia.
Qed.

Lemma nth_IndexByte s c :
  c ∈ list_ascii_of_string s ->
  nth (Z.to_nat (IndexByte s c)) (list_ascii_of_string s) zero = c.
Proof.
  induction s as [|a s IH]; simpl list_ascii_of_string; [by intros ?%elem_of_nil|].
  intros Hin. cbn [IndexByte]. destruct (Ascii.eqb_spec a c) as [->|Hne]; [done|].
  apply elem_of_cons in Hin as [->|Hin]; [done|].
  pose proof (IndexByte_bound s c Hin) as Hb. specialize (IH Hin).
  destruct (IndexByte s c) as [|p|p] eqn:E; [done| |lia].
  rewrite Z2Nat.inj_succ by lia. done.
Qed.

Lemma table_at_IndexByte c :
  c ∈ alphabet ->
  table_at (Z.to_N (IndexByte b58table c)) = c /\ Z.to_N (IndexByte b58table c) < 58.
Proof.
  intros Hc. pose proof (IndexByte_bound b58table c Hc) as Hb.
  split; [|change (Z.of_nat (String.length b58table)) with 58%Z in Hb; lia].
  unfold table_at. rewrite Z_N_nat. by apply nth_IndexByte.
Qed.

Lemma parse_loop_find l acc :
  match List.find outside l with
  | Some r => parse_loop l acc = inr r
  | None => exists n, parse_loop l acc = inl n
  end.
Proof.
  revert acc. induction l as [|c l IH]; intros acc; [by eexists|].
  cbn [List.find parse_loop]. unfold outside at 1.
  destruct (decide (c ∈ alphabet)) as [Hc|Hc].
  - rewrite bool_decide_eq_true_2 by done. cbn [negb].
    pose proof (IndexByte_elem b58table c Hc).
    destruct (Z.eqb_spec (IndexByte b58table c) (-1)); [lia|]. apply IH.
  - rewrite bool_decide_eq_false_2 by done. cbn [negb].
    rewrite IndexByte_not_elem by done. done.
Qed.

(** X1: the errors of [Parse].  A text whose length is not 22 gives the
    length error; otherwise the first byte outside the alphabet gives the
    byte error; otherwise there is no error.  With an error comes the zero
    identifier. *)
Theorem Parse_errors (s : string) :
  (Parse s).2 =
    (if decide (String.length s <> 22%nat) then Some (ErrInvalidLength (String.length s))
     else match List.find (fun c => negb (bool_decide (c ∈ alphabet))) (list_ascii_of_string s) with
          | Some r => Some (ErrInvalidByte r)
          | None => None
          end) /\
  match (Parse s).2 with
  | Some _ => (Parse s).1 = zeroID
  | None => True
  end.
Proof.
  unfold Parse. change strlen with 22%nat.
  destruct (decide (String.length s <> 22%nat)); [done|].
  pose proof (parse_loop_find (list_ascii_of_string s) 0) as H.
  unfold outside in H.
  destruct (List.find _ _) as [r|].
  - rewrite H. done.
  - destruct H as [m ->]. done.
Qed.

Lemma Parse_yields_sixteen_bytes (s : string) : wf_ID (Parse s).1.
Proof.
  unfold Parse. destruct (decide _); [done|].
  destruct (parse_loop _ _); [|done].
  cbv zeta. unfold wf_ID. cbn [fst value]. by rewrite length_copy.
Qed.

Lemma SetBytes_app_zeros k bs : SetBytes (replicate k zero ++ bs) = SetBytes bs.
Proof.
  unfold SetBytes. rewrite fold_left_app.
  replace (fold_left _ (replicate k zero) 0) with 0; [done|].
  induction k as [|k IH]; [done|]. simpl. exact IH.
Qed.

Lemma SetBytes_Bytes n : SetBytes (Bytes n) = n.
Proof.
  induction n as [n IH] using (well_founded_induction N.lt_wf_0).
  rewrite Bytes_unfold. destruct (N.eq_dec n 0) as [->|Hn]; [done|].
  rewrite SetBytes_snoc, IH by (apply N.div_lt; lia).
  rewrite N_ascii_embedding by (apply N.mod_lt; lia).
  rewrite N.mul_comm. symmetry. apply N.div_mod. lia.
Qed.

Lemma Bytes_length_upper n k : n < 256 ^ N.of_nat k -> (length (Bytes n) <= k)%nat.
Proof.
  revert n. induction k as [|k IH]; intros n Hn.
  - rewrite Bytes_unfold. destruct (N.eq_dec n 0); [simpl; lia|]. simpl in Hn. lia.
  - rewrite Bytes_unfold. destruct (N.eq_dec n 0); [simpl; lia|].
    rewrite length_app. simpl.
    assert (n / 256 < 256 ^ N.of_nat k).
    { apply N.Div0.div_lt_upper_bound.
      rewrite Nat2N.inj_succ, N.pow_succ_r' in Hn. lia. }
    specialize (IH _ H). lia.
Qed.

(** The text of an identifier: the digits of its number, most significant
    first, behind as many zero symbols as it takes to make 22. *)
Lemma String_shape v :
  String v =
  string_of_list_ascii
    (replicate (strlen - length (encode_loop (SetBytes (value v)) [])) (table_at 0)
     ++ reverse (encode_loop (SetBytes (value v)) [])).
Proof. unfold String. cbv zeta. by rewrite pad_loop_spec, reverse_app, reverse_replicate. Qed.

(** What [Parse] makes of a number below 2^128 once the digits are read. *)
Lemma Parse_of_value s n :
  String.length s = 22%nat ->
  parse_loop (list_ascii_of_string s) 0 = inl n -> n < 2 ^ 128 ->
  Parse s = (mkID (replicate (16 - length (Bytes n)) zero ++ Bytes n), None) /\
  length (replicate (16 - length (Bytes n)) zero ++ Bytes n) = 16%nat.
Proof.
  intros Hlen Hp Hn. unfold Parse.
  rewrite decide_False by (rewrite Hlen; unfold strlen; lia).
  rewrite Hp. cbv zeta.
  pose proof (Bytes_length_upper n 16 Hn) as Hl.
  assert (Hlen16 : length (replicate (16 - length (Bytes n)) zero ++ Bytes n) = 16%nat)
    by (rewrite length_app, length_replicate; lia).
  split; [|done].
  destruct (Z.ltb_spec 0 (16 - Z.of_nat (length (Bytes n)))) as [Hpos|Hpos].
  - replace (Z.to_nat (16 - Z.of_nat (length (Bytes n)))) with (16 - length (Bytes n))%nat by lia.
    unfold copy. cbn [value zeroID]. rewrite length_replicate, Hlen16.
    rewrite take_ge by lia.
    change (drop 16 (replicate 16 zero)) with (@nil ascii). by rewrite app_nil_r.
  - assert (length (Bytes n) = 16%nat) as E by lia.
    rewrite E in *. simpl replicate. simpl app.
    unfold copy. cbn [value zeroID]. rewrite length_replicate, E.
    rewrite take_ge by lia.
    change (drop 16 (replicate 16 zero)) with (@nil ascii). by rewrite app_nil_r.
Qed.

Lemma Parse_String v : wf_ID v -> Parse (String v) = (v, None).
Proof.
  intros Hv. unfold wf_ID in Hv.
  pose proof (SetBytes_bound (value v)) as Hb. rewrite Hv in Hb.
  assert (Hn : SetBytes (value v) < 58 ^ 22) by (eapply N.lt_trans; [exact Hb | exact pow58_22]).
  pose proof (encode_loop_length _ 22 Hn) as Hlen.
  destruct (Parse_of_value (String v) (SetBytes (value v))) as [-> _].
  - rewrite String_shape, length_string_of_list_ascii, length_app, length_replicate,
      length_reverse. unfold strlen. lia.
  - by rewrite String_shape, list_ascii_of_string_of_list_ascii, parse_loop_zeros,
      parse_loop_digits.
  - exact Hb.
  - destruct (Bytes_SetBytes (value v)) as [_ He]. rewrite Hv in He. rewrite He.
    by destruct v.
Qed.

(** X2: two different identifiers have different texts, hence different
    record files. *)
Theorem String_injective (u v : ID) :
  wf_ID u -> wf_ID v -> u <> v -> String u <> String v.
Proof.
  intros Hu Hv Hne E. pose proof (Parse_String u Hu) as H1.
  rewrite E, (Parse_String v Hv) in H1. congruence.
Qed.

Lemma String_injective_witness :
  wf_ID idR /\ wf_ID idC /\ idR <> idC /\ String idR <> String idC.
Proof.
  assert (H1 : wf_ID idR) by reflexivity.
  assert (H2 : wf_ID idC) by reflexivity.
  assert (H3 : idR <> idC) by (vm_compute; discriminate).
  split; [exact H1|]. split; [exact H2|]. split; [exact H3|].
  exact (String_injective idR idC H1 H2 H3).
Defined.

(** The digits of the value of a text are the text without its leading zero
    symbols. *)
Lemma digits_of_value l n :
  Forall (fun c => c ∈ alphabet) l -> parse_loop l 0 = inl n ->
  replicate (length l - length (encode_loop n [])) (table_at 0)
    ++ reverse (encode_loop n []) = l.
Proof.
  revert n. induction l as [|c l IH] using rev_ind; intros n Hl Hp.
  - injection Hp as <-. done.
  - apply Forall_app in Hl as [Hl Hc]. rewrite Forall_singleton in Hc.
    rewrite parse_loop_app in Hp.
    destruct (parse_loop_accepts l 0 Hl) as [m Hm]. rewrite Hm in Hp.
    cbn [parse_loop] in Hp.
    destruct (table_at_IndexByte c Hc) as [Ht Hi].
    pose proof (IndexByte_elem b58table c Hc) as H0.
    destruct (Z.eqb_spec (IndexByte b58table c) (-1)); [lia|].
    injection Hp as <-. specialize (IH m Hl Hm).
    set (d := Z.to_N (IndexByte b58table c)) in *.
    rewrite length_app. simpl length.
    rewrite (encode_loop_unfold (m * 58 + d)).
    destruct (N.eq_dec (m * 58 + d) 0) as [E|E].
    + assert (m = 0) as -> by lia. assert (d = 0) as Ed by lia.
      rewrite Ed in Ht. rewrite encode_loop_unfold in IH. simpl in IH.
      rewrite app_nil_r, Nat.sub_0_r in IH.
      simpl. rewrite app_nil_r, Nat.sub_0_r.
      replace (length l + 1)%nat with (S (length l)) by lia.
      rewrite replicate_S_end, IH, Ht. done.
    + replace ((m * 58 + d) / 58) with m by (apply N.div_unique with d; lia).
      replace ((m * 58 + d) mod 58) with d by (apply N.mod_unique with m; lia).
      rewrite encode_loop_app. cbn [app]. rewrite reverse_cons, Ht.
      simpl length.
      replace (length l + 1 - S (length (encode_loop m [])))%nat
        with (length l - length (encode_loop m []))%nat by lia.
      by rewrite app_assoc, IH.
Qed.

(** X3: a text of 22 characters whose value is below 2^128 is the text of
    the identifier it parses to: below 2^128, [Parse] and [String] are
    inverse to each other in both directions. *)
Theorem String_after_Parse (s : string) (n : N) :
  String.length s = 22%nat ->
  parse_loop (list_ascii_of_string s) 0 = inl n -> n < 2 ^ 128 ->
  String (Parse s).1 = s.
Proof.
  intros Hlen Hp Hn.
  destruct (Parse_of_value s n Hlen Hp Hn) as [-> _]. cbn [fst].
  rewrite String_shape. cbn [value]. rewrite SetBytes_app_zeros, SetBytes_Bytes.
  assert (Hal : Forall (fun c => c ∈ alphabet) (list_ascii_of_string s)).
  { pose proof (parse_loop_find (list_ascii_of_string s) 0) as H.
    destruct (List.find outside _) as [r|] eqn:E; [congruence|].
    apply Forall_forall. intros c Hc.
    apply list_elem_of_In in Hc.
    pose proof (find_none _ _ E c Hc) as Ho. unfold outside in Ho.
    apply negb_false_iff, bool_decide_eq_true in Ho. done. }
  pose proof (digits_of_value _ n Hal Hp) as Hd.
  assert (length (list_ascii_of_string s) = 22%nat) as E.
  { rewrite <- Hlen. clear. induction s; simpl; congruence. }
  rewrite E in Hd. change strlen with 22%nat. rewrite Hd.
  apply string_of_list_ascii_of_string.
Qed.

Lemma String_after_Parse_witness :
  String.length "WXC2BGKFiiDAjBWbf6wayV" = 22%nat /\
  parse_loop (list_ascii_of_string "WXC2BGKFiiDAjBWbf6wayV") 0
    = inl (SetBytes (value idC)) /\
  SetBytes (value idC) < 2 ^ 128 /\
  String (Parse "WXC2BGKFiiDAjBWbf6wayV").1 = "WXC2BGKFiiDAjBWbf6wayV".
Proof.
  assert (H1 : String.length "WXC2BGKFiiDAjBWbf6wayV" = 22%nat) by reflexivity.
  assert (H2 : parse_loop (list_ascii_of_string "WXC2BGKFiiDAjBWbf6wayV") 0
               = inl (SetBytes (value idC))) by (vm_compute; reflexivity).
  assert (H3 : SetBytes (value idC) < 2 ^ 128) by (vm_compute; reflexivity).
  split; [exact H1|]. split; [exact H2|]. split; [exact H3|].
  exact (String_after_Parse _ _ H1 H2 H3).
Defined.

End CodecMore.

(** * The names of the files, and the sections *)
Section SectionStore.

Lemma idClass_alphabet c : idClass c = bool_decide (c ∈ alphabet).
Proof. destruct c as [[] [] [] [] [] [] [] []]; vm_compute; reflexivity. Qed.

Lemma length_list_ascii_of_string s : length (list_ascii_of_string s) = String.length s.
Proof. induction s; simpl; congruence. Qed.

Lemma forallb_idClass l : forallb idClass l = bool_decide (Forall (fun c => c ∈ alphabet) l).
Proof.
  induction l as [|c l IH]; [done|]. cbn [forallb]. rewrite IH, idClass_alphabet.
  destruct (decide (c ∈ alphabet)) as [Hc|Hc].
  - rewrite (bool_decide_eq_true_2 _ Hc). cbn [andb]. apply bool_decide_ext.
    rewrite Forall_cons. tauto.
  - rewrite (bool_decide_eq_false_2 _ Hc). cbn [andb]. symmetry.
    apply bool_decide_eq_false_2. rewrite Forall_cons. tauto.
Qed.

Lemma Parse_ok_iff s :
  (Parse s).2 = None <->
  String.length s = 22%nat /\ Forall (fun c => c ∈ alphabet) (list_ascii_of_string s).
Proof.
  unfold Parse. change strlen with 22%nat.
  destruct (decide (String.length s <> 22%nat)) as [Hn|Hn]; [cbn; split; [done | tauto]|].
  apply dec_stable in Hn.
  pose proof (parse_loop_find (list_ascii_of_string s) 0) as H.
  destruct (List.find outside _) as [r|] eqn:E.
  - rewrite H. cbn. split; [done|]. intros [_ Hall].
    apply find_some in E as [Hin Ho]. apply list_elem_of_In in Hin.
    rewrite Forall_forall in Hall. specialize (Hall r Hin).
    unfold outside in Ho. by rewrite bool_decide_eq_true_2 in Ho.
  - destruct H as [n ->]. cbn. split; [|done]. intros _. split; [done|].
    apply Forall_forall. intros c Hc. apply list_elem_of_In in Hc.
    pose proof (find_none _ _ E c Hc) as Ho. unfold outside in Ho.
    by apply negb_false_iff, bool_decide_eq_true in Ho.
Qed.

Lemma match_idPattern_spec cs :
  match_idPattern cs =
  if bool_decide ((22 <= length cs)%nat /\ Forall (fun c => c ∈ alphabet) (take 22 cs))
  then Some (drop 22 cs) else None.
Proof.
  unfold match_idPattern. rewrite forallb_idClass.
  rewrite length_take.
  destruct (decide (22 <= length cs)%nat) as [Hl|Hl].
  - rewrite (bool_decide_eq_true_2 (_ = _)) by lia. cbn [andb].
    destruct (decide (Forall (fun c => c ∈ alphabet) (take 22 cs))) as [Ha|Ha].
    + by rewrite !bool_decide_eq_true_2.
    + rewrite bool_decide_eq_false_2 by done. by rewrite bool_decide_eq_false_2 by tauto.
  - rewrite (bool_decide_eq_false_2 (_ = _)) by lia. cbn [andb].
    by rewrite bool_decide_eq_false_2 by tauto.
Qed.


Lemma list_ascii_of_string_app a b :
  list_ascii_of_string (a +:+ b) = list_ascii_of_string a ++ list_ascii_of_string b.
Proof. induction a as [|c a IH]; [done|]. cbn. by rewrite <- IH. Qed.

Lemma list_ascii_of_string_inj a b : list_ascii_of_string a = list_ascii_of_string b -> a = b.
Proof.
  intros H. rewrite <- (string_of_list_ascii_of_string a), <- (string_of_list_ascii_of_string b).
  by rewrite H.
Qed.

(** The text of an identifier has 22 characters of the alphabet (the first
    two parts of the round trip, for use below). *)
Lemma String_text v :
  wf_ID v ->
  length (list_ascii_of_string (String v)) = 22%nat /\
  Forall (fun c => c ∈ alphabet) (list_ascii_of_string (String v)).
Proof.
  intros Hv. pose proof (Parse_String v Hv) as Hp.
  assert (Hok : (Parse (String v)).2 = None) by (by rewrite Hp).
  apply Parse_ok_iff in Hok as [H22 Hall]. by rewrite length_list_ascii_of_string.
Qed.

Lemma sectionFileName_chars u section :
  list_ascii_of_string (sectionFileName u section) =
  list_ascii_of_string (String u) ++ "."%char :: list_ascii_of_string section.
Proof. unfold sectionFileName. by rewrite !list_ascii_of_string_app. Qed.

Lemma checkSectionNameSanity_ok section :
  checkSectionNameSanity section = None ->
  section <> "" /\ forallb sectionClass (list_ascii_of_string section) = true.
Proof.
  unfold checkSectionNameSanity, match_sectionPattern.
  destruct section as [|c s]; [done|]. cbn [list_ascii_of_string].
  destruct (forallb _ _); done.
Qed.

(** X5: what the store writes, its loader accepts: the name of a record file
    matches the pattern and has the 22 characters that make [loadRecords]
    read it as a record; the name of a section file matches the pattern and
    is longer, so that it is passed over. *)
Theorem written_names_are_loadable (u : ID) (section : string) :
  wf_ID u ->
  checkSectionNameSanity section = None ->
  (onlyFileInFsRootPattern_MatchString (String u) = true /\
   String.length (String u) = 22%nat) /\
  (onlyFileInFsRootPattern_MatchString (sectionFileName u section) = true /\
   String.length (sectionFileName u section) <> 22%nat).
Proof.
  intros Hu Hs. destruct (String_text u Hu) as [H22 Hall].
  apply checkSectionNameSanity_ok in Hs as [Hne Hcls].
  split; [split|split].
  - unfold onlyFileInFsRootPattern_MatchString. rewrite match_idPattern_spec.
    rewrite bool_decide_eq_true_2 by (split; [lia | by rewrite take_ge by lia]).
    by rewrite drop_ge by lia.
  - by rewrite <- length_list_ascii_of_string.
  - unfold onlyFileInFsRootPattern_MatchString.
    rewrite match_idPattern_spec, sectionFileName_chars.
    rewrite bool_decide_eq_true_2.
    + rewrite drop_app_length' by done. cbn [Ascii.eqb]. 
      unfold match_sectionPattern. destruct section as [|c s]; [done|].
      cbn [list_ascii_of_string] in *. by rewrite Hcls.
    + split; [rewrite length_app; lia|]. by rewrite take_app_length' by done.
  - rewrite <- length_list_ascii_of_string, sectionFileName_chars, length_app. simpl. lia.
Qed.

Lemma written_names_are_loadable_witness :
  wf_ID idC /\ checkSectionNameSanity "data" = None /\
  (onlyFileInFsRootPattern_MatchString (String idC) = true /\
   String.length (String idC) = 22%nat) /\
  (onlyFileInFsRootPattern_MatchString (sectionFileName idC "data") = true /\
   String.length (sectionFileName idC "data") <> 22%nat).
Proof.
  assert (H1 : wf_ID idC) by reflexivity.
  assert (H2 : checkSectionNameSanity "data" = None) by reflexivity.
  split; [exact H1|]. split; [exact H2|].
  exact (written_names_are_loadable idC "data" H1 H2).
Defined.

(** X6: different sections never share a file, and a section file never
    has the name of a record file. *)
Theorem section_files_are_distinct (u u' : ID) (section section' : string) :
  wf_ID u -> wf_ID u' ->
  (sectionFileName u section = sectionFileName u' section' -> u = u' /\ section = section') /\
  sectionFileName u section <> String u'.
Proof.
  intros Hu Hu'. destruct (String_text u Hu) as [H22 _]. destruct (String_text u' Hu') as [H22' _].
  split.
  - intros E. apply (f_equal list_ascii_of_string) in E.
    rewrite !sectionFileName_chars in E.
    apply app_inj_1 in E as [E1 E2]; [|congruence].
    injection E2 as E2. split.
    + apply list_ascii_of_string_inj in E1.
      pose proof (Parse_String u Hu) as Hp. rewrite E1, (Parse_String u' Hu') in Hp.
      congruence.
    + by apply list_ascii_of_string_inj.
  - intros E. apply (f_equal (fun s => length (list_ascii_of_string s))) in E.
    rewrite sectionFileName_chars, length_app in E. simpl in E. lia.
Qed.

Lemma checkSectionNameSanity_bad section c :
  c ∈ list_ascii_of_string section -> sectionClass c = false ->
  checkSectionNameSanity section = Some ErrSectionNameNotSane.
Proof.
  intros Hin Hc. unfold checkSectionNameSanity, match_sectionPattern.
  destruct (list_ascii_of_string section) as [|a l] eqn:E; [done|].
  replace (forallb sectionClass (a :: l)) with false; [done|].
  symmetry. apply not_true_is_false. intros Hall.
  rewrite forallb_forall in Hall. apply list_elem_of_In in Hin.
  specialize (Hall c Hin). congruence.
Qed.

Lemma section_ops_reject u section w :
  checkSectionNameSanity section = Some ErrSectionNameNotSane ->
  OpenSection u section w = (Return (None, Some ErrSectionNameNotSane), w) /\
  CreateSection u section w = (Return (None, Some ErrSectionNameNotSane), w) /\
  DeleteSection u section w = (Return (Some ErrSectionNameNotSane), w).
Proof. intros H. unfold OpenSection, CreateSection, DeleteSection. by rewrite H. Qed.

Lemma section_files_are_distinct_witness :
  wf_ID idR /\ wf_ID idC /\
  (sectionFileName idR "data" = sectionFileName idC "meta" -> idR = idC /\ "data" = "meta") /\
  sectionFileName idR "data" <> String idC.
Proof.
  assert (H1 : wf_ID idR) by reflexivity.
  assert (H2 : wf_ID idC) by reflexivity.
  split; [exact H1|]. split; [exact H2|].
  exact (section_files_are_distinct idR idC "data" "meta" H1 H2).
Defined.

(** X7: the empty name and every name with a path separator or a dot is
    refused by the three section operations, which then leave the store
    and the files alone: a section name cannot lead out of the storage
    root or name the file of a record or of another identifier. *)
Theorem unsafe_section_names_are_refused (u : ID) (section : string) (w : World) :
  section = "" \/ "/"%char ∈ list_ascii_of_string section
               \/ "."%char ∈ list_ascii_of_string section ->
  OpenSection u section w = (Return (None, Some ErrSectionNameNotSane), w) /\
  CreateSection u section w = (Return (None, Some ErrSectionNameNotSane), w) /\
  DeleteSection u section w = (Return (Some ErrSectionNameNotSane), w).
Proof.
  intros H. apply section_ops_reject.
  destruct H as [->|[H|H]]; [done| |];
    eapply checkSectionNameSanity_bad; try exact H; reflexivity.
Qed.

Lemma CreateSection_run u section w dir :
  checkSectionNameSanity section = None ->
  dirs (os w) !! basePath (the_fs w) = Some dir ->
  CreateSection u section w =
  match dir !! sectionFileName u section with
  | Some (Dir _) => (Return (None, Some (ErrOS EISDIR)), w)
  | _ => (Return (Some (mkWriteCloser (basePath (the_fs w)) (sectionFileName u section) []), None),
          set_os (mkOS (<[basePath (the_fs w) :=
                           <[sectionFileName u section := File (Blob [])]> dir]> (dirs (os w)))
                       (cwd (os w))) w)
  end.
Proof.
  intros Hs Hd. unfold CreateSection. rewrite Hs, bind_run. cbn [get].
  unfold Create. rewrite Hd.
  destruct (dir !! sectionFileName u section) as [[e|c]|]; cbn; try reflexivity.
  by destruct w as [f h []].
Qed.

Lemma section_steps u section data w dir :
  checkSectionNameSanity section = None ->
  dirs (os w) !! basePath (the_fs w) = Some dir ->
  (forall e, dir !! sectionFileName u section <> Some (Dir e)) ->
  let f := mkWriteCloser (basePath (the_fs w)) (sectionFileName u section) [] in
  let r := mkReadCloser (basePath (the_fs w)) (sectionFileName u section) in
  let w2 := with_section u section data dir w in
  CreateSection u section w = (Return (Some f, None), with_section u section [] dir w) /\
  WriteAll f data (with_section u section [] dir w) = (Return None, w2) /\
  OpenSection u section w2 = (Return (Some r, None), w2) /\
  ReadAll r w2 = (Return (Blob data, None), w2).
Proof.
  intros Hs Hd Hnd f r w2. split; [|split].
  - rewrite (CreateSection_run u section w dir Hs Hd).
    destruct (dir !! sectionFileName u section) as [[e|c]|] eqn:E; [by destruct (Hnd e)|done..].
  - unfold WriteAll. rewrite bind_run.
    cbn [get os set_os with_section w_dir w_name w_written dirs f].
    rewrite lookup_insert_eq, bind_run. cbn.
    unfold w2, with_section, set_os. cbn. by rewrite !insert_insert_eq.
  - unfold OpenSection, ReadAll. rewrite Hs, !bind_run. cbn [get]. unfold Open.
    cbn [os w2 with_section set_os dirs the_fs r_dir r_name r].
    by rewrite !lookup_insert_eq.
Qed.

Lemma file_at_insert o d dir name nd d' name' :
  dirs o !! d = Some dir ->
  file_at (mkOS (<[d := <[name := nd]> dir]> (dirs o)) (cwd o)) d' name' =
  if decide (d' = d /\ name' = name) then Some nd else file_at o d' name'.
Proof.
  intros Hd. unfold file_at. cbn [dirs].
  destruct (decide (d' = d)) as [->|Hne].
  - rewrite lookup_insert_eq. cbn. rewrite Hd. cbn.
    destruct (decide (name' = name)) as [->|Hn].
    + rewrite lookup_insert_eq. by rewrite decide_True.
    + rewrite lookup_insert_ne by done. by rewrite decide_False by tauto.
  - rewrite lookup_insert_ne by done. by rewrite decide_False by tauto.
Qed.

Lemma file_at_delete o d dir name d' name' :
  dirs o !! d = Some dir ->
  file_at (mkOS (<[d := delete name dir]> (dirs o)) (cwd o)) d' name' =
  if decide (d' = d /\ name' = name) then None else file_at o d' name'.
Proof.
  intros Hd. unfold file_at. cbn [dirs].
  destruct (decide (d' = d)) as [->|Hne].
  - rewrite lookup_insert_eq. cbn. rewrite Hd. cbn.
    destruct (decide (name' = name)) as [->|Hn].
    + rewrite lookup_delete_eq. by rewrite decide_True.
    + rewrite lookup_delete_ne by done. by rewrite decide_False by tauto.
  - rewrite lookup_insert_ne by done. by rewrite decide_False by tauto.
Qed.

Lemma unsafe_section_names_are_refused_witness :
  ("" = "" \/ "/"%char ∈ list_ascii_of_string "../x"
           \/ "."%char ∈ list_ascii_of_string "../x") /\
  OpenSection idC "../x" w0 = (Return (None, Some ErrSectionNameNotSane), w0) /\
  CreateSection idC "../x" w0 = (Return (None, Some ErrSectionNameNotSane), w0) /\
  DeleteSection idC "../x" w0 = (Return (Some ErrSectionNameNotSane), w0).
Proof.
  assert (H : "../x" = "" \/ "/"%char ∈ list_ascii_of_string "../x"
                         \/ "."%char ∈ list_ascii_of_string "../x").
  { right. left. apply (bool_decide_unpack _). vm_compute. exact I. }
  split; [left; reflexivity|].
  exact (unsafe_section_names_are_refused idC "../x" w0 H).
Defined.

(** X8: writing a section and reading it back.  When the name is sane, the
    storage root exists and no directory is in the way, [CreateSection]
    with the bytes written through its file, then [OpenSection] with the
    file read to its end, gives these bytes back, whether or not the
    identifier has a record; the index and the records are as before and so
    is every other file. *)
Theorem section_write_then_read (u : ID) (section : string) (data : list byte)
    (w : World) (dir : gmap string node) :
  checkSectionNameSanity section = None ->
  dirs (os w) !! basePath (the_fs w) = Some dir ->
  (forall e, dir !! sectionFileName u section <> Some (Dir e)) ->
  exists f w1 w2 r,
    CreateSection u section w = (Return (Some f, None), w1) /\
    WriteAll f data w1 = (Return None, w2) /\
    OpenSection u section w2 = (Return (Some r, None), w2) /\
    ReadAll r w2 = (Return (Blob data, None), w2) /\
    the_fs w2 = the_fs w /\ heap w2 = heap w /\
    forall d name,
      (d, name) <> (basePath (the_fs w), sectionFileName u section) ->
      file_at (os w2) d name = file_at (os w) d name.
Proof.
  intros Hs Hd Hnd.
  destruct (section_steps u section data w dir Hs Hd Hnd) as (Hc & Hw & Ho & Hr).
  eexists _, _, _, _. split; [exact Hc|]. split; [exact Hw|].
  split; [exact Ho|]. split; [exact Hr|]. split; [done|]. split; [done|].
  intros d n Hne. unfold with_section. cbn [os set_os].
  rewrite (file_at_insert _ _ dir) by done.
  rewrite decide_False; [done|]. intros [-> ->]. done.
Qed.

Lemma section_write_then_read_witness :
  checkSectionNameSanity "thumb" = None /\
  dirs (os w0) !! basePath (the_fs w0) = Some files0 /\
  (forall e, files0 !! sectionFileName idN "thumb" <> Some (Dir e)) /\
  exists f w1 w2 r,
    CreateSection idN "thumb" w0 = (Return (Some f, None), w1) /\
    WriteAll f ["001"; "002"; "003"]%char w1 = (Return None, w2) /\
    OpenSection idN "thumb" w2 = (Return (Some r, None), w2) /\
    ReadAll r w2 = (Return (Blob ["001"; "002"; "003"]%char, None), w2) /\
    the_fs w2 = the_fs w0 /\ heap w2 = heap w0 /\
    forall d name,
      (d, name) <> (basePath (the_fs w0), sectionFileName idN "thumb") ->
      file_at (os w2) d name = file_at (os w0) d name.
Proof.
  assert (H1 : checkSectionNameSanity "thumb" = None) by reflexivity.
  assert (H2 : dirs (os w0) !! basePath (the_fs w0) = Some files0) by (vm_compute; reflexivity).
  assert (H3 : forall e, files0 !! sectionFileName idN "thumb" <> Some (Dir e))
    by (intros e; vm_compute; discriminate).
  split; [exact H1|]. split; [exact H2|]. split; [exact H3|].
  exact (section_write_then_read idN "thumb" _ w0 files0 H1 H2 H3).
Defined.

(** X9: deleting a section: a missing section is reported with ENOENT and
    nothing changes; an existing one is removed, a later [OpenSection]
    reports ENOENT, and the index, the records and every other file are as
    before. *)
Theorem DeleteSection_effect (u : ID) (section : string) (w : World)
    (dir : gmap string node) :
  checkSectionNameSanity section = None ->
  dirs (os w) !! basePath (the_fs w) = Some dir ->
  (dir !! sectionFileName u section = None ->
   DeleteSection u section w = (Return (Some (ErrOS ENOENT)), w)) /\
  (forall c, dir !! sectionFileName u section = Some (File c) ->
   exists w',
     DeleteSection u section w = (Return None, w') /\
     OpenSection u section w' = (Return (None, Some (ErrOS ENOENT)), w') /\
     the_fs w' = the_fs w /\ heap w' = heap w /\
     forall d name,
       (d, name) <> (basePath (the_fs w), sectionFileName u section) ->
       file_at (os w') d name = file_at (os w) d name).
Proof.
  intros Hs Hd. split.
  - intros Hn. unfold DeleteSection. rewrite Hs, bind_run. cbn [get].
    unfold Remove. rewrite Hd, Hn. cbn. by destruct w as [f h []].
  - intros c Hc. unfold DeleteSection. rewrite Hs, bind_run. cbn [get].
    unfold Remove. rewrite Hd, Hc. rewrite bind_run. cbn [modify].
    eexists. split; [reflexivity|]. split; [|split; [done|split; [done|]]].
    + unfold OpenSection. rewrite Hs, bind_run. cbn [get]. unfold Open.
      cbn [os set_os dirs the_fs]. by rewrite lookup_insert_eq, lookup_delete_eq.
    + intros d n Hne. cbn [os set_os].
      rewrite (file_at_delete _ _ dir) by done.
      rewrite decide_False; [done|]. intros [-> ->]. done.
Qed.

Lemma DeleteSection_effect_witness :
  checkSectionNameSanity "data" = None /\
  dirs (os w0) !! basePath (the_fs w0) = Some files0 /\
  files0 !! sectionFileName idR "data" = None /\
  DeleteSection idR "data" w0 = (Return (Some (ErrOS ENOENT)), w0) /\
  files0 !! sectionFileName idC "data" = Some (File (Blob ["001"; "002"; "003"]%char)) /\
  exists w',
    DeleteSection idC "data" w0 = (Return None, w') /\
    OpenSection idC "data" w' = (Return (None, Some (ErrOS ENOENT)), w') /\
    the_fs w' = the_fs w0 /\ heap w' = heap w0 /\
    forall d name,
      (d, name) <> (basePath (the_fs w0), sectionFileName idC "data") ->
      file_at (os w') d name = file_at (os w0) d name.
Proof.
  assert (H1 : checkSectionNameSanity "data" = None) by reflexivity.
  assert (H2 : dirs (os w0) !! basePath (the_fs w0) = Some files0) by (vm_compute; reflexivity).
  assert (H3 : files0 !! sectionFileName idR "data" = None) by (vm_compute; reflexivity).
  assert (H4 : files0 !! sectionFileName idC "data"
               = Some (File (Blob ["001"; "002"; "003"]%char))) by (vm_compute; reflexivity).
  split; [exact H1|]. split; [exact H2|]. split; [exact H3|].
  split; [exact (proj1 (DeleteSection_effect idR "data" w0 files0 H1 H2) H3)|].
  split; [exact H4|].
  exact (proj2 (DeleteSection_effect idC "data" w0 files0 H1 H2) _ H4).
Defined.

End SectionStore.

(** * Loading and persisting *)
Section Loading.

(** What the second loop of [loadRecords] keeps: the files, the fields of
    [fs] other than the index, the records allocated before, and the index
    entries of the identifiers it does not load. *)
Lemma loadRecords_read_frame names w o w' :
  loadRecords_read names w = (o, w') ->
  os w' = os w /\ lock (the_fs w') = lock (the_fs w) /\
  root (the_fs w') = root (the_fs w) /\ basePath (the_fs w') = basePath (the_fs w) /\
  heap w ⊆ heap w' /\
  (forall u, u ∉ key_of <$> names -> records (the_fs w') !! u = records (the_fs w) !! u) /\
  returned o = true.
Proof.
  revert w. induction names as [|name names IH]; intros w.
  { intros [= <- <-]. done. }
  cbn [loadRecords_read]. destruct (Parse name) as [u [e|]] eqn:Ep.
  { intros [= <- <-]. done. }
  rewrite bind_run. cbn [get].
  destruct (ReadFile (os w) (basePath (the_fs w)) name) as [f [e|]].
  { intros [= <- <-]. done. }
  rewrite bind_run. unfold new at 1.
  set (l := fresh (dom (heap w))).
  assert (Hl : heap w !! l = None) by (apply not_elem_of_dom, is_fresh).
  destruct (json_decode f) as [decoded [e|]].
  { intros [= <- <-]. cbn. repeat split; try done. by apply insert_subseteq. }
  rewrite bind_run. unfold assign. rewrite bind_run. unfold deref.
  cbn [heap set_heap]. rewrite lookup_insert_eq.
  unfold modify at 1. rewrite bind_run. unfold index_store, modify.
  cbn [heap set_heap]. rewrite insert_insert_eq.
  intros H. apply IH in H as (Ho & Hk & Hr & Hb & Hh & Hi & Hret).
  cbn [heap set_heap the_fs set_fs set_records records os lock root basePath] in *.
  repeat split; try done.
  - etrans; [|exact Hh]. by apply insert_subseteq.
  - intros v Hv. rewrite fmap_cons, not_elem_of_cons in Hv. destruct Hv as [Hne Hv].
    rewrite (Hi v Hv). apply lookup_insert_ne. unfold key_of in Hne. rewrite Ep in Hne. done.
Qed.

Lemma loadRecords_read_restores names w w' :
  NoDup (key_of <$> names) ->
  loadRecords_read names w = (Return None, w') ->
  forall name, name ∈ names ->
    exists c r, ReadFile (os w) (basePath (the_fs w)) name = (c, None) /\
                json_decode c = (r, None) /\
                record_of w' (key_of name) = Some r.
Proof.
  revert w. induction names as [|name names IH]; intros w Hnd Hrun n Hn.
  { by apply elem_of_nil in Hn. }
  rewrite fmap_cons in Hnd. apply NoDup_cons in Hnd as [Hfresh Hnd].
  cbn [loadRecords_read] in Hrun. destruct (Parse name) as [u [e|]] eqn:Ep; [done|].
  rewrite bind_run in Hrun. cbn [get] in Hrun.
  destruct (ReadFile (os w) (basePath (the_fs w)) name) as [f [e|]] eqn:Ef; [done|].
  rewrite bind_run in Hrun. unfold new at 1 in Hrun.
  set (l := fresh (dom (heap w))) in *.
  destruct (json_decode f) as [decoded [e|]] eqn:Ed; [done|].
  rewrite bind_run in Hrun. unfold assign in Hrun. rewrite bind_run in Hrun.
  unfold deref in Hrun. cbn [heap set_heap] in Hrun. rewrite lookup_insert_eq in Hrun.
  unfold modify at 1 in Hrun. rewrite bind_run in Hrun. unfold index_store, modify in Hrun.
  cbn [heap set_heap] in Hrun. rewrite insert_insert_eq in Hrun.
  apply elem_of_cons in Hn as [->|Hn].
  - exists f, decoded. split; [done|]. split; [done|].
    apply loadRecords_read_frame in Hrun as (_ & _ & _ & _ & Hh & Hi & _).
    assert (Hk : key_of name = u) by (unfold key_of; by rewrite Ep).
    rewrite Hk in *.
    cbn [heap set_heap the_fs set_fs set_records records] in Hh, Hi.
    unfold record_of. rewrite (Hi u Hfresh), lookup_insert_eq. cbn.
    eapply lookup_weaken; [|exact Hh]. apply lookup_insert_eq.
  - apply (IH _ Hnd Hrun n Hn).
Qed.

(** The names that the first loop of [loadRecords] collects. *)
Lemma loadRecords_scan_ok entries acc rf :
  loadRecords_scan entries acc = (rf, None) ->
  rf = acc ++ List.filter (fun n => bool_decide (String.length n = 22%nat)) entries.*1 /\
  Forall (fun e => is_garbage e = false) entries.
Proof.
  revert acc. induction entries as [|e es IH]; intros acc; cbn [loadRecords_scan].
  { intros [= <-]. by rewrite app_nil_r. }
  unfold is_garbage at 1.
  destruct (is_dir e.2) eqn:Edir; [done|].
  destruct (onlyFileInFsRootPattern_MatchString e.1) eqn:Em; [|done]. cbn [negb].
  intros H. apply IH in H as [-> Hall]. split.
  - cbn [fmap list_fmap List.filter]. destruct (bool_decide _); [|done].
    by rewrite <- app_assoc.
  - constructor; [|done]. unfold is_garbage. by rewrite Edir, Em.
Qed.

Lemma ReadDir_entries o d dir :
  dirs o !! d = Some dir ->
  exists entries, ReadDir o d = (entries, None) /\
    (forall name nd, (name, nd) ∈ entries <-> dir !! name = Some nd) /\
    NoDup entries.*1.
Proof.
  intros Hd. unfold ReadDir. rewrite Hd. eexists. split; [done|]. split.
  - intros name nd. rewrite merge_sort_Permutation. apply elem_of_map_to_list.
  - rewrite merge_sort_Permutation. apply NoDup_fst_map_to_list.
Qed.

Lemma NewFs_run root base o :
  NewFs root base o =
  match loadRecords (empty_world root base o) with
  | (Return (Some e), w) => (Return (Some e), w)
  | (Return None, w) =>
      if bool_decide (is_Some (records (the_fs w) !! root))
      then (Return None, w) else (Return (Some ErrRootNotFound), w)
  | (Crash c, w) => (Crash c, w)
  | (OutOfFuel, w) => (OutOfFuel, w)
  end.
Proof.
  unfold NewFs. rewrite bind_run.
  destruct (loadRecords _) as [[[e|]|c|] w]; try reflexivity.
  rewrite bind_run. cbn [get]. by destruct (bool_decide _).
Qed.

(** What [NewFs] leaves as it found it, whatever it returns. *)
Lemma NewFs_frame root base o out w :
  NewFs root base o = (out, w) ->
  os w = o /\ lock (the_fs w) = mkRWMutex 0 false /\
  Fs.root (the_fs w) = root /\ basePath (the_fs w) = base /\
  exists err, out = Return err.
Proof.
  rewrite NewFs_run, loadRecords_run. cbn [os empty_world the_fs basePath].
  destruct (ReadDir o base) as [entries [e|]];
    [intros [= <- <-]; repeat (split; [done|]); by eexists|].
  destruct (loadRecords_scan entries []) as [rf [e|]];
    [intros [= <- <-]; repeat (split; [done|]); by eexists|].
  destruct (loadRecords_read rf (empty_world root base o)) as [out1 w1] eqn:E.
  apply loadRecords_read_frame in E as (Ho & Hk & Hr & Hb & _ & _ & Hret).
  destruct out1 as [[e|]|c|]; try done.
  - intros [= <- <-]. repeat (split; [done|]). by eexists.
  - destruct (bool_decide _); intros [= <- <-]; repeat (split; [done|]); by eexists.
Qed.

(** X10: [NewFs] always returns; it only reads the files, and the [Fs] it
    returns has its lock free and the root and path it was given. *)
Theorem NewFs_only_reads (root : ID) (base : string) (o : OS) :
  exists err w,
    NewFs root base o = (Return err, w) /\
    os w = o /\
    lock (the_fs w) = mkRWMutex 0 false /\
    Fs.root (the_fs w) = root /\ basePath (the_fs w) = base.
Proof.
  rewrite NewFs_run, loadRecords_run. cbn [os empty_world the_fs basePath].
  destruct (ReadDir o base) as [entries [e|]]; [by eexists _, _|].
  destruct (loadRecords_scan entries []) as [rf [e|]]; [by eexists _, _|].
  destruct (loadRecords_read rf (empty_world root base o)) as [out w] eqn:E.
  apply loadRecords_read_frame in E as (Ho & Hk & Hr & Hb & _ & _ & Hret).
  destruct out as [[e|]|c|]; try done.
  - by eexists _, _.
  - destruct (bool_decide _); by eexists _, _.
Qed.

(** A successful [NewFs], step by step: the record files are the entries
    with names of 22 characters, they are loaded one after the other into
    the empty index, and the root is found. *)
Lemma NewFs_load root base o dir w :
  dirs o !! base = Some dir ->
  NewFs root base o = (Return None, w) ->
  exists rf,
    (forall name, name ∈ rf <->
       String.length name = 22%nat /\ exists nd, dir !! name = Some nd) /\
    NoDup rf /\
    loadRecords_read rf (empty_world root base o) = (Return None, w) /\
    is_Some (records (the_fs w) !! root).
Proof.
  intros Hd. rewrite NewFs_run, loadRecords_run.
  cbn [os empty_world the_fs basePath].
  destruct (ReadDir_entries o base dir Hd) as (entries & -> & Hin & Hnd).
  destruct (loadRecords_scan entries []) as [rf [e|]] eqn:Es; [done|].
  apply loadRecords_scan_ok in Es as [-> Hfiles]. cbn [app].
  set (rf := List.filter _ _).
  destruct (loadRecords_read rf (empty_world root base o)) as [out w1] eqn:E.
  destruct out as [[e|]|c|]; try done.
  destruct (bool_decide (is_Some (records (the_fs w1) !! root))) eqn:Eroot; [|done].
  intros [= <-]. exists rf. split; [|split; [|split]].
  - intros name. unfold rf. rewrite list_elem_of_In, filter_In, <- list_elem_of_In.
    rewrite bool_decide_eq_true, list_elem_of_fmap. split.
    + intros [([n nd] & -> & Hx) Hl]. split; [done|]. exists nd. by apply Hin.
    + intros [Hl [nd Hx]]. split; [|done]. exists (name, nd). split; [done|]. by apply Hin.
  - unfold rf. apply NoDup_ListNoDup, List.NoDup_filter, NoDup_ListNoDup, Hnd.
  - done.
  - by apply bool_decide_eq_true in Eroot.
Qed.

Lemma restored_file root base o dir rf w name nd :
  dirs o !! base = Some dir ->
  (forall name, name ∈ rf <->
     String.length name = 22%nat /\ exists nd, dir !! name = Some nd) ->
  NoDup (key_of <$> rf) ->
  loadRecords_read rf (empty_world root base o) = (Return None, w) ->
  dir !! name = Some nd -> String.length name = 22%nat ->
  exists c r, nd = File c /\ json_decode c = (r, None) /\ record_of w (Parse name).1 = Some r.
Proof.
  intros Hd Hrf Hkeys E Hx Hl.
  destruct (loadRecords_read_restores rf _ _ Hkeys E name) as (c & r & Hf & Hj & Hrec).
  { apply Hrf. eauto. }
  unfold ReadFile in Hf. cbn [os empty_world the_fs basePath] in Hf.
  rewrite Hd, Hx in Hf. destruct nd as [e|c']; [done|]. injection Hf as <-.
  by exists c', r.
Qed.

(** X11: a successful [NewFs] restores the persisted documents: the index holds
    exactly the identifiers that the 22-character file names parse to, each
    with the children, the kind and the name of its document, provided no
    two record files stand for one identifier. *)
Theorem NewFs_restores_documents (root : ID) (base : string) (o : OS)
    (dir : gmap string node) (w : World) :
  dirs o !! base = Some dir ->
  (forall n1 n2 nd1 nd2,
     dir !! n1 = Some nd1 -> dir !! n2 = Some nd2 ->
     String.length n1 = 22%nat -> String.length n2 = 22%nat ->
     (Parse n1).1 = (Parse n2).1 -> n1 = n2) ->
  NewFs root base o = (Return None, w) ->
  (forall name nd, dir !! name = Some nd -> String.length name = 22%nat ->
     exists c r, nd = File c /\ json_decode c = (r, None) /\ record_of w (Parse name).1 = Some r) /\
  (forall u, is_Some (records (the_fs w) !! u) ->
     exists name nd, dir !! name = Some nd /\ String.length name = 22%nat /\ (Parse name).1 = u) /\
  is_Some (records (the_fs w) !! root).
Proof.
  intros Hd Hinj Hnew.
  destruct (NewFs_load root base o dir w Hd Hnew) as (rf & Hrf & Hnd & E & Hroot).
  assert (Hkeys : NoDup (key_of <$> rf)).
  { apply NoDup_fmap_2_strong; [|done].
    intros n1 n2 [H1 [nd1 Hx1]]%Hrf [H2 [nd2 Hx2]]%Hrf E'. by eapply Hinj. }
  split; [|split; [|done]].
  - intros name nd Hx Hl. by eapply restored_file.
  - intros u Hu. destruct (decide (u ∈ key_of <$> rf)) as [Hk|Hk].
    + apply list_elem_of_fmap in Hk as (name & -> & [Hl [nd Hx]]%Hrf). by exists name, nd.
    + apply loadRecords_read_frame in E as (_ & _ & _ & _ & _ & Hi & _).
      rewrite (Hi u Hk) in Hu. cbn in Hu. rewrite lookup_empty in Hu. by destruct Hu.
Qed.

Lemma NoDup_fmap_inj_on {A B} (f : A -> B) (l : list A) x y :
  NoDup (f <$> l) -> x ∈ l -> y ∈ l -> f x = f y -> x = y.
Proof.
  induction l as [|a l IH]; intros Hnd Hx Hy E; [by apply elem_of_nil in Hx|].
  rewrite fmap_cons in Hnd. apply NoDup_cons in Hnd as [Hna Hnd].
  apply elem_of_cons in Hx as [->|Hx]; apply elem_of_cons in Hy as [->|Hy].
  - reflexivity.
  - exfalso. apply Hna. rewrite E. apply list_elem_of_fmap. by exists y.
  - exfalso. apply Hna. rewrite <- E. apply list_elem_of_fmap. by exists x.
  - by apply IH.
Qed.

(** The condition on the record files, checked by computation. *)
Lemma record_names_distinct_spec dir :
  record_names_distinct dir = true ->
  forall n1 n2 nd1 nd2,
    dir !! n1 = Some nd1 -> dir !! n2 = Some nd2 ->
    String.length n1 = 22%nat -> String.length n2 = 22%nat ->
    (Parse n1).1 = (Parse n2).1 -> n1 = n2.
Proof.
  unfold record_names_distinct. intros H%bool_decide_eq_true n1 n2 nd1 nd2 H1 H2 L1 L2 E.
  assert (Hin : forall n nd, dir !! n = Some nd -> String.length n = 22%nat ->
            n ∈ List.filter (fun n => bool_decide (String.length n = 22%nat)) (map_to_list dir).*1).
  { intros n nd Hn Hl. rewrite list_elem_of_In, filter_In, <- list_elem_of_In.
    split; [|by apply bool_decide_eq_true].
    apply list_elem_of_fmap. exists (n, nd). split; [done|]. by apply elem_of_map_to_list. }
  eapply (NoDup_fmap_inj_on key_of); [exact H|by eapply Hin..|exact E].
Qed.

Lemma NewFs_restores_documents_witness :
  dirs disk0 !! root_dir = Some files0 /\
  (forall n1 n2 nd1 nd2,
     files0 !! n1 = Some nd1 -> files0 !! n2 = Some nd2 ->
     String.length n1 = 22%nat -> String.length n2 = 22%nat ->
     (Parse n1).1 = (Parse n2).1 -> n1 = n2) /\
  NewFs idR root_dir disk0 = (Return None, w0) /\
  (forall name nd, files0 !! name = Some nd -> String.length name = 22%nat ->
     exists c r, nd = File c /\ json_decode c = (r, None) /\ record_of w0 (Parse name).1 = Some r) /\
  (forall u, is_Some (records (the_fs w0) !! u) ->
     exists name nd, files0 !! name = Some nd /\ String.length name = 22%nat /\ (Parse name).1 = u) /\
  is_Some (records (the_fs w0) !! idR).
Proof.
  assert (H1 : dirs disk0 !! root_dir = Some files0) by (vm_compute; reflexivity).
  assert (H2 : forall n1 n2 nd1 nd2,
     files0 !! n1 = Some nd1 -> files0 !! n2 = Some nd2 ->
     String.length n1 = 22%nat -> String.length n2 = 22%nat ->
     (Parse n1).1 = (Parse n2).1 -> n1 = n2)
    by (apply record_names_distinct_spec; vm_compute; reflexivity).
  assert (H3 : NewFs idR root_dir disk0 = (Return None, w0)) by (vm_compute; reflexivity).
  split; [exact H1|]. split; [exact H2|]. split; [exact H3|].
  exact (NewFs_restores_documents idR root_dir disk0 files0 w0 H1 H2 H3).
Defined.



Lemma writeRecord_run l r w dir :
  heap w !! l = Some r ->
  dirs (os w) !! basePath (the_fs w) = Some dir ->
  writeRecord (Some l) w =
  match dir !! String (id r) with
  | Some (Dir _) => (Return (Some (ErrOS EISDIR)), w)
  | _ => (Return None,
          set_os (mkOS (<[basePath (the_fs w) :=
                           <[String (id r) := File (json_encode r)]> dir]> (dirs (os w)))
                       (cwd (os w))) w)
  end.
Proof.
  intros Hl Hd. unfold writeRecord. rewrite bind_run. unfold deref. rewrite Hl.
  rewrite bind_run. cbn [get]. unfold WriteFile. rewrite Hd.
  destruct (dir !! String (id r)) as [[e|c]|]; cbn; try reflexivity.
  by destruct w as [f h []].
Qed.

Lemma loadRecords_scan_clean entries acc :
  Forall (fun e => is_garbage e = false) entries ->
  loadRecords_scan entries acc =
  (acc ++ List.filter (fun n => bool_decide (String.length n = 22%nat)) entries.*1, None).
Proof.
  intros H. revert acc. induction H as [|e es He _ IH]; intros acc; cbn [loadRecords_scan].
  { by rewrite app_nil_r. }
  unfold is_garbage in He. apply orb_false_iff in He as [-> Hm].
  rewrite Hm, IH. cbn [fmap list_fmap List.filter].
  destruct (bool_decide _); [|done]. by rewrite <- app_assoc.
Qed.

(** A name of 22 characters that matches the pattern of the storage root
    parses. *)
Lemma matching_name_parses name :
  onlyFileInFsRootPattern_MatchString name = true -> String.length name = 22%nat ->
  (Parse name).2 = None.
Proof.
  unfold onlyFileInFsRootPattern_MatchString. rewrite match_idPattern_spec.
  intros Hm Hl. case_bool_decide as H; [|done]. destruct H as [_ Hall].
  apply Parse_ok_iff. split; [done|].
  by rewrite take_ge in Hall by (rewrite length_list_ascii_of_string; lia).
Qed.

Lemma loadRecords_read_undecodable names w :
  (forall n, n ∈ names ->
     (Parse n).2 = None /\ exists c, ReadFile (os w) (basePath (the_fs w)) n = (c, None)) ->
  (exists n c, n ∈ names /\ ReadFile (os w) (basePath (the_fs w)) n = (c, None) /\
               (json_decode c).2 <> None) ->
  exists w', loadRecords_read names w = (Return (Some ErrJsonDecode), w').
Proof.
  revert w. induction names as [|name names IH]; intros w Hall (n & c & Hn & Hf & Hbad).
  { by apply elem_of_nil in Hn. }
  cbn [loadRecords_read].
  destruct (Hall name) as [Hp [c0 Hf0]]; [by left|].
  destruct (Parse name) as [u e]. cbn [snd] in Hp. subst e.
  rewrite bind_run. cbn [get]. rewrite Hf0, bind_run. unfold new at 1.
  destruct (json_decode c0) as [decoded [e|]] eqn:Ed; [by eexists|].
  rewrite bind_run. unfold assign. rewrite bind_run. unfold deref.
  cbn [heap set_heap]. rewrite lookup_insert_eq.
  unfold modify at 1. rewrite bind_run. unfold index_store, modify.
  apply IH.
  - intros m Hm. apply Hall. by right.
  - apply elem_of_cons in Hn as [->|Hn].
    + rewrite Hf0 in Hf. injection Hf as <-. rewrite Ed in Hbad. done.
    + by exists n, c.
Qed.

(** X13: two more ways in which [NewFs] fails: with ENOENT when the storage root
    does not exist, and with the JSON error when the storage root holds
    nothing that [loadRecords] calls garbage but one of its record files
    does not decode. *)
Theorem NewFs_load_errors (root : ID) (base : string) (o : OS) :
  (dirs o !! base = None ->
   NewFs root base o = (Return (Some (ErrOS ENOENT)), empty_world root base o)) /\
  (forall dir name c,
     dirs o !! base = Some dir ->
     (forall n nd, dir !! n = Some nd -> is_garbage (n, nd) = false) ->
     dir !! name = Some (File c) -> String.length name = 22%nat ->
     (json_decode c).2 <> None ->
     exists w, NewFs root base o = (Return (Some ErrJsonDecode), w)).
Proof.
  split.
  - intros Hd. rewrite NewFs_run, loadRecords_run. unfold ReadDir.
    cbn [os empty_world the_fs basePath]. by rewrite Hd.
  - intros dir name c Hd Hclean Hx Hl Hbad.
    rewrite NewFs_run, loadRecords_run. cbn [os empty_world the_fs basePath].
    destruct (ReadDir_entries o base dir Hd) as (entries & -> & Hin & Hnd).
    rewrite loadRecords_scan_clean.
    2:{ apply Forall_forall. intros [n nd] Hn. apply (Hclean n nd). by apply Hin. }
    cbn [app]. set (rf := List.filter _ _).
    assert (Hrf : forall n, n ∈ rf <-> String.length n = 22%nat /\ exists nd, dir !! n = Some nd).
    { intros n. unfold rf. rewrite list_elem_of_In, filter_In, <- list_elem_of_In.
      rewrite bool_decide_eq_true, list_elem_of_fmap. split.
      - intros [([n' nd] & -> & Hx') Hl']. split; [done|]. exists nd. by apply Hin.
      - intros [Hl' [nd Hx']]. split; [|done]. exists (n, nd). split; [done|]. by apply Hin. }
    assert (Hread : forall n nd, dir !! n = Some nd ->
              exists c', nd = File c' /\ ReadFile o base n = (c', None)).
    { intros n nd Hn. pose proof (Hclean n nd Hn) as Hg. unfold is_garbage in Hg.
      apply orb_false_iff in Hg as [Hdir _]. unfold ReadFile. rewrite Hd, Hn.
      destruct nd as [e|c']; [done|]. by exists c'. }
    destruct (loadRecords_read_undecodable rf (empty_world root base o)) as [w' ->].
    + intros n [Hl' [nd Hn]]%Hrf. split.
      * apply matching_name_parses; [|done].
        pose proof (Hclean n nd Hn) as Hg. unfold is_garbage in Hg.
        apply orb_false_iff in Hg as [_ Hm]. by apply negb_false_iff in Hm.
      * destruct (Hread n nd Hn) as (c' & _ & Hf). by exists c'.
    + exists name, c. split; [apply Hrf; eauto|]. split; [|done].
      destruct (Hread name _ Hx) as (c' & [= <-] & Hf). done.
    + by exists w'.
Qed.

Lemma NewFs_load_errors_witness :
  (dirs disk_missing !! root_dir = None /\
   NewFs idR root_dir disk_missing
     = (Return (Some (ErrOS ENOENT)), empty_world idR root_dir disk_missing)) /\
  (dirs disk_undecodable !! root_dir = Some files_undecodable /\
   (forall n nd, files_undecodable !! n = Some nd -> is_garbage (n, nd) = false) /\
   files_undecodable !! String idR = Some (File (Blob ["{"%char])) /\
   String.length (String idR) = 22%nat /\
   (json_decode (Blob ["{"%char])).2 <> None /\
   exists w, NewFs idR root_dir disk_undecodable = (Return (Some ErrJsonDecode), w)).
Proof.
  split.
  - assert (H : dirs disk_missing !! root_dir = None) by (vm_compute; reflexivity).
    split; [exact H|]. exact (proj1 (NewFs_load_errors idR root_dir disk_missing) H).
  - assert (H1 : dirs disk_undecodable !! root_dir = Some files_undecodable)
      by (vm_compute; reflexivity).
    assert (H2 : forall n nd, files_undecodable !! n = Some nd -> is_garbage (n, nd) = false).
    { intros n nd Hn. unfold files_undecodable in Hn.
      apply lookup_singleton_Some in Hn as [<- <-]. vm_compute. reflexivity. }
    assert (H3 : files_undecodable !! String idR = Some (File (Blob ["{"%char])))
      by apply lookup_singleton_eq.
    assert (H4 : String.length (String idR) = 22%nat) by (vm_compute; reflexivity).
    assert (H5 : (json_decode (Blob ["{"%char])).2 <> None) by discriminate.
    split; [exact H1|]. split; [exact H2|]. split; [exact H3|]. split; [exact H4|].
    split; [exact H5|].
    exact (proj2 (NewFs_load_errors idR root_dir disk_undecodable) _ _ _ H1 H2 H3 H4 H5).
Defined.

(** A storage root that [NewFs] accepts exists and holds no directory and
    no file with another name than the pattern allows. *)
Lemma NewFs_clean_root root base o w :
  NewFs root base o = (Return None, w) ->
  exists dir, dirs o !! base = Some dir /\
    forall name nd, dir !! name = Some nd -> is_garbage (name, nd) = false.
Proof.
  rewrite NewFs_run, loadRecords_run. cbn [os empty_world the_fs basePath].
  destruct (dirs o !! base) as [dir|] eqn:Hd.
  - destruct (ReadDir_entries o base dir Hd) as (entries & -> & Hin & _).
    destruct (loadRecords_scan entries []) as [rf [e|]] eqn:Es; [done|].
    apply loadRecords_scan_ok in Es as [_ Hall]. intros _.
    exists dir. split; [done|]. intros name nd Hx.
    rewrite Forall_forall in Hall. apply (Hall (name, nd)). by apply Hin.
  - unfold ReadDir. rewrite Hd. done.
Qed.

(** X12: [loadRecords] fills neither the identifier nor the reference count
    of a record, as the document has neither.  Every record that a
    successful [NewFs] has indexed, under whatever identifier, carries the
    count 0 and the zero identifier; so [writeRecord], given such a record,
    stores its document under the text of the zero identifier and leaves
    the file it was loaded from as it is. *)
Theorem loaded_records_lose_identifier_and_count (root : ID) (base : string) (o : OS)
    (w : World) (u : ID) (l : loc) (r : record) :
  NewFs root base o = (Return None, w) ->
  records (the_fs w) !! u = Some l -> heap w !! l = Some r ->
  refs r = 0 /\ id r = zeroID /\
  exists w',
    writeRecord (Some l) w = (Return None, w') /\
    file_at (os w') base (String zeroID) = Some (File (json_encode r)) /\
    the_fs w' = the_fs w /\ heap w' = heap w /\
    forall d name,
      (d, name) <> (base, String zeroID) ->
      file_at (os w') d name = file_at o d name.
Proof.
  intros Hnew Hu Hl.
  destruct (NewFs_leaves_records_unreferenced root base o None w Hnew u r) as [Hrefs Hid].
  { unfold record_of. rewrite Hu. exact Hl. }
  split; [exact Hrefs|]. split; [exact Hid|].
  destruct (NewFs_clean_root root base o w Hnew) as (dir & Hd & Hclean).
  destruct (NewFs_frame root base o _ w Hnew) as (Ho & _ & _ & Hb & _).
  assert (Hd' : dirs (os w) !! basePath (the_fs w) = Some dir) by (by rewrite Ho, Hb).
  rewrite (writeRecord_run l r w dir Hl Hd'), Hid, Hb.
  assert (Hw : forall w', w' = set_os (mkOS (<[base :=
                           <[String zeroID := File (json_encode r)]> dir]> (dirs (os w)))
                       (cwd (os w))) w ->
       file_at (os w') base (String zeroID) = Some (File (json_encode r)) /\
       the_fs w' = the_fs w /\ heap w' = heap w /\
       forall d name,
         (d, name) <> (base, String zeroID) ->
         file_at (os w') d name = file_at o d name).
  { intros w' ->. cbn [os set_os the_fs heap]. rewrite Ho in *.
    split; [|split; [done|split; [done|]]].
    - rewrite (file_at_insert _ _ dir) by done. by rewrite decide_True.
    - intros d n Hne. rewrite (file_at_insert _ _ dir) by done.
      rewrite decide_False; [done|]. intros [-> ->]. done. }
  destruct (dir !! String zeroID) as [[e|c]|] eqn:E.
  - apply Hclean in E. done.
  - eexists. split; [reflexivity|]. by apply Hw.
  - eexists. split; [reflexivity|]. by apply Hw.
Qed.

Lemma loaded_records_lose_identifier_and_count_witness :
  NewFs idR root_dir disk0 = (Return None, w0) /\
  records (the_fs w0) !! idC = Some 2%positive /\
  heap w0 !! 2%positive = Some (mkRecord [] false "a.txt" zeroID 0 false) /\
  exists w',
    writeRecord (Some 2%positive) w0 = (Return None, w') /\
    file_at (os w') root_dir "1111111111111111111111"
      = Some (File (Document [] false "a.txt")) /\
    file_at (os w') root_dir (String idC) = file_at disk0 root_dir (String idC).
Proof.
  assert (H1 : NewFs idR root_dir disk0 = (Return None, w0)) by (vm_compute; reflexivity).
  assert (H2 : records (the_fs w0) !! idC = Some 2%positive) by (vm_compute; reflexivity).
  assert (H3 : heap w0 !! 2%positive = Some (mkRecord [] false "a.txt" zeroID 0 false))
    by (vm_compute; reflexivity).
  split; [exact H1|]. split; [exact H2|]. split; [exact H3|].
  destruct (loaded_records_lose_identifier_and_count idR root_dir disk0 w0 idC _ _ H1 H2 H3)
    as (_ & _ & w' & Hw & Hf & _ & _ & Hrest).
  exists w'. split; [exact Hw|]. split; [exact Hf|].
  apply Hrest. vm_compute. discriminate.
Defined.

(** X14: [writeRecord] stores the document of the record under the text of its
    identifier in the storage root and touches nothing else; it reports
    ENOENT when the storage root is missing and EISDIR when a directory has
    that name, and changes nothing then; on [nil] it panics. *)
Theorem writeRecord_effect (l : loc) (r : record) (w : World) :
  heap w !! l = Some r ->
  (dirs (os w) !! basePath (the_fs w) = None ->
   writeRecord (Some l) w = (Return (Some (ErrOS ENOENT)), w)) /\
  (forall dir e,
     dirs (os w) !! basePath (the_fs w) = Some dir ->
     dir !! String (id r) = Some (Dir e) ->
     writeRecord (Some l) w = (Return (Some (ErrOS EISDIR)), w)) /\
  (forall dir,
     dirs (os w) !! basePath (the_fs w) = Some dir ->
     (forall e, dir !! String (id r) <> Some (Dir e)) ->
     exists w',
       writeRecord (Some l) w = (Return None, w') /\
       file_at (os w') (basePath (the_fs w)) (String (id r)) = Some (File (json_encode r)) /\
       the_fs w' = the_fs w /\ heap w' = heap w /\
       forall d name,
         (d, name) <> (basePath (the_fs w), String (id r)) ->
         file_at (os w') d name = file_at (os w) d name) /\
  writeRecord None w = (Crash PanicNilDereference, w).
Proof.
  intros Hl. split; [|split; [|split]].
  - intros Hd. unfold writeRecord. rewrite bind_run. unfold deref. rewrite Hl.
    rewrite bind_run. cbn [get]. unfold WriteFile. rewrite Hd. cbn.
    by destruct w as [f h []].
  - intros dir e Hd He. by rewrite (writeRecord_run l r w dir Hl Hd), He.
  - intros dir Hd Hnd. rewrite (writeRecord_run l r w dir Hl Hd).
    assert (forall w', w' = set_os (mkOS (<[basePath (the_fs w) :=
                           <[String (id r) := File (json_encode r)]> dir]> (dirs (os w)))
                       (cwd (os w))) w ->
       file_at (os w') (basePath (the_fs w)) (String (id r)) = Some (File (json_encode r)) /\
       the_fs w' = the_fs w /\ heap w' = heap w /\
       forall d name,
         (d, name) <> (basePath (the_fs w), String (id r)) ->
         file_at (os w') d name = file_at (os w) d name) as Hw.
    { intros w' ->. cbn [os set_os the_fs heap]. split; [|split; [done|split; [done|]]].
      - rewrite (file_at_insert _ _ dir) by done. by rewrite decide_True.
      - intros d n Hne. rewrite (file_at_insert _ _ dir) by done.
        rewrite decide_False; [done|]. intros [-> ->]. done. }
    destruct (dir !! String (id r)) as [[e|c]|] eqn:E; [by destruct (Hnd e)| |];
      eexists; (split; [reflexivity|]); by apply Hw.
  - reflexivity.
Qed.

Lemma writeRecord_effect_witness :
  heap w_chain !! 3%positive = Some (mkRecord [] false "a.jpg" idG 1 false) /\
  dirs (os w_chain) !! basePath (the_fs w_chain) = Some files_chain /\
  (forall e, files_chain !! String idG <> Some (Dir e)) /\
  exists w',
    writeRecord (Some 3%positive) w_chain = (Return None, w') /\
    file_at (os w') root_dir (String idG)
      = Some (File (json_encode (mkRecord [] false "a.jpg" idG 1 false))) /\
    the_fs w' = the_fs w_chain /\ heap w' = heap w_chain /\
    forall d name,
      (d, name) <> (root_dir, String idG) ->
      file_at (os w') d name = file_at (os w_chain) d name.
Proof.
  assert (H1 : heap w_chain !! 3%positive = Some (mkRecord [] false "a.jpg" idG 1 false))
    by (vm_compute; reflexivity).
  assert (H2 : dirs (os w_chain) !! basePath (the_fs w_chain) = Some files_chain)
    by (vm_compute; reflexivity).
  assert (H3 : forall e, files_chain !! String idG <> Some (Dir e))
    by (intros e; vm_compute; discriminate).
  split; [exact H1|]. split; [exact H2|]. split; [exact H3|].
  exact (proj1 (proj2 (proj2 (writeRecord_effect 3%positive _ w_chain H1))) files_chain H2 H3).
Defined.



Lemma setRecord_run l r w :
  heap w !! l = Some r ->
  lock (the_fs w) = mkRWMutex 0 false ->
  setRecord (Some l) w =
  (Return tt, set_fs (set_records (<[id r := l]> (records (the_fs w))) (the_fs w)) w).
Proof.
  intros Hl Hk. unfold setRecord. rewrite bind_run. unfold Lock. rewrite Hk. cbn [writer readers orb negb Nat.eqb].
  unfold defer. rewrite bind_run. unfold deref. cbn [heap set_fs]. rewrite Hl.
  unfold index_store, modify, Unlock. cbn.
  destruct w as [[k rs rt bp] h o]. cbn in *. by subst k.
Qed.

(** X16: [newRecord] with a parent that exists, on a store whose lock is
    free.
    When the new identifier is already among the parent's children, the
    error "child already there" comes after the index entry of that
    identifier has been replaced by the new, empty record.  Otherwise the
    new record is indexed with the reference count 1, appended to the
    parent's children in memory, and its document is written; no other
    file is written, so the parent's document still lacks the child. *)
Theorem newRecord_effect (p : loc) (par : record) (name : string) (dir_flag : bool)
    (fresh_id : ID) (w : World) :
  lock (the_fs w) = mkRWMutex 0 false ->
  heap w !! p = Some par ->
  let l := fresh (dom (heap w)) in
  let child := mkRecord [] dir_flag name fresh_id 1 false in
  (fresh_id ∈ Children par ->
   exists w',
     newRecord (Some p) name dir_flag fresh_id w
       = (Return (None, Some ErrChildAlreadyThere), w') /\
     records (the_fs w') = <[fresh_id := l]> (records (the_fs w)) /\
     heap w' = <[l := child]> (heap w) /\ os w' = os w) /\
  (forall dir,
     fresh_id ∉ Children par ->
     dirs (os w) !! basePath (the_fs w) = Some dir ->
     (forall e, dir !! String fresh_id <> Some (Dir e)) ->
     exists w',
       newRecord (Some p) name dir_flag fresh_id w = (Return (Some l, None), w') /\
       records (the_fs w') = <[fresh_id := l]> (records (the_fs w)) /\
       heap w' = <[p := set_Children (Children par ++ [fresh_id]) par]> (<[l := child]> (heap w)) /\
       lock (the_fs w') = mkRWMutex 0 false /\
       file_at (os w') (basePath (the_fs w)) (String fresh_id) = Some (File (json_encode child)) /\
       forall d name',
         (d, name') <> (basePath (the_fs w), String fresh_id) ->
         file_at (os w') d name' = file_at (os w) d name').
Proof.
  intros Hk Hp l child.
  assert (Hl : heap w !! l = None) by (apply not_elem_of_dom, is_fresh).
  assert (Hpl : p <> l) by (intros ->; congruence).
  set (w1 := set_heap (<[l := child]> (heap w)) w).
  set (w2 := set_fs (set_records (<[fresh_id := l]> (records (the_fs w1))) (the_fs w1)) w1).
  assert (Hset : setRecord (Some l) w1 = (Return tt, w2)).
  { apply (setRecord_run l child w1); [apply lookup_insert_eq | done]. }
  assert (Hstart :
            newRecord (Some p) name dir_flag fresh_id w =
            (if bool_decide (fresh_id ∈ Children par)
             then mret (None, Some ErrChildAlreadyThere)
             else assign (Some p) (set_Children (Children par ++ [fresh_id]));;
                  err ← writeRecord (Some l); mret (Some l, err)) w2).
  { unfold newRecord. rewrite bind_run. unfold new at 1.
    fold l. fold child. fold w1. rewrite bind_run, Hset, bind_run.
    unfold deref at 1. cbn [heap w2 w1 set_fs set_heap].
    rewrite lookup_insert_ne by done. rewrite Hp. done. }
  rewrite Hstart. clear Hstart. split.
  - intros Hin. rewrite bool_decide_eq_true_2 by done. by exists w2.
  - intros dir Hnin Hd Hnd. rewrite bool_decide_eq_false_2 by done.
    rewrite bind_run. unfold assign. rewrite bind_run. unfold deref.
    cbn [heap w2 w1 set_fs set_heap]. rewrite lookup_insert_ne by done. rewrite Hp.
    unfold modify at 1. rewrite bind_run.
    cbn [heap w2 w1 set_fs set_heap].
    match goal with |- context [writeRecord (Some l) ?w3'] => set (w3 := w3') end.
    rewrite (writeRecord_run l child w3 dir); [|unfold w3; cbn; rewrite lookup_insert_ne by done; apply lookup_insert_eq | done].
    cbn [id child].
    assert (Hfin : forall w', w' = set_os (mkOS (<[basePath (the_fs w3) :=
                      <[String fresh_id := File (json_encode child)]> dir]> (dirs (os w3)))
                    (cwd (os w3))) w3 ->
       records (the_fs w') = <[fresh_id := l]> (records (the_fs w)) /\
       heap w' = <[p := set_Children (Children par ++ [fresh_id]) par]> (<[l := child]> (heap w)) /\
       lock (the_fs w') = mkRWMutex 0 false /\
       file_at (os w') (basePath (the_fs w)) (String fresh_id) = Some (File (json_encode child)) /\
       forall d name',
         (d, name') <> (basePath (the_fs w), String fresh_id) ->
         file_at (os w') d name' = file_at (os w) d name').
    { intros w' ->. unfold w3. cbn. split; [done|]. split; [done|]. split; [done|]. split.
      - rewrite (file_at_insert (os w) _ dir) by done. by rewrite decide_True.
      - intros d n Hne. rewrite (file_at_insert (os w) _ dir) by done.
        rewrite decide_False; [done|]. intros [-> ->]. done. }
    destruct (dir !! String fresh_id) as [[e|c]|] eqn:E; [by destruct (Hnd e)| |];
      eexists; (split; [reflexivity|]); by apply Hfin.
Qed.

Lemma newRecord_effect_witness :
  let par := mkRecord [idC] true "" idR 0 false in
  let l := fresh (dom (heap w_chain)) in
  lock (the_fs w_chain) = mkRWMutex 0 false /\
  heap w_chain !! 1%positive = Some par /\
  (idC ∈ Children par /\
   exists w',
     newRecord (Some 1%positive) "b.jpg" false idC w_chain
       = (Return (None, Some ErrChildAlreadyThere), w') /\
     records (the_fs w') = <[idC := l]> (records (the_fs w_chain)) /\
     heap w' = <[l := mkRecord [] false "b.jpg" idC 1 false]> (heap w_chain) /\
     os w' = os w_chain) /\
  ((idN ∉ Children par) /\
   dirs (os w_chain) !! basePath (the_fs w_chain) = Some files_chain /\
   (forall e, files_chain !! String idN <> Some (Dir e)) /\
   exists w',
     newRecord (Some 1%positive) "b.jpg" false idN w_chain = (Return (Some l, None), w') /\
     records (the_fs w') = <[idN := l]> (records (the_fs w_chain)) /\
     heap w' = <[1%positive := set_Children (Children par ++ [idN]) par]>
                 (<[l := mkRecord [] false "b.jpg" idN 1 false]> (heap w_chain)) /\
     lock (the_fs w') = mkRWMutex 0 false /\
     file_at (os w') (basePath (the_fs w_chain)) (String idN)
       = Some (File (json_encode (mkRecord [] false "b.jpg" idN 1 false))) /\
     forall d name',
       (d, name') <> (basePath (the_fs w_chain), String idN) ->
       file_at (os w') d name' = file_at (os w_chain) d name').
Proof.
  cbv zeta.
  assert (H1 : lock (the_fs w_chain) = mkRWMutex 0 false) by reflexivity.
  assert (H2 : heap w_chain !! 1%positive = Some (mkRecord [idC] true "" idR 0 false))
    by (vm_compute; reflexivity).
  assert (H3 : idC ∈ Children (mkRecord [idC] true "" idR 0 false)) by (cbn; left).
  assert (H4 : idN ∉ Children (mkRecord [idC] true "" idR 0 false)).
  { cbn. apply (bool_decide_unpack _). vm_compute. exact I. }
  assert (H5 : dirs (os w_chain) !! basePath (the_fs w_chain) = Some files_chain)
    by (vm_compute; reflexivity).
  assert (H6 : forall e, files_chain !! String idN <> Some (Dir e))
    by (intros e; vm_compute; discriminate).
  split; [exact H1|]. split; [exact H2|]. split.
  - split; [exact H3|].
    exact (proj1 (newRecord_effect 1%positive _ "b.jpg" false idC w_chain H1 H2) H3).
  - split; [exact H4|]. split; [exact H5|]. split; [exact H6|].
    exact (proj2 (newRecord_effect 1%positive _ "b.jpg" false idN w_chain H1 H2)
                 files_chain H4 H5 H6).
Defined.

End Loading.

(** * What deleteRecord leaves alone *)
Section Deleting.

Lemma kept_refl w : kept_but_working_dir w w.
Proof. done. Qed.

Lemma kept_trans w1 w2 w3 :
  kept_but_working_dir w1 w2 -> kept_but_working_dir w2 w3 -> kept_but_working_dir w1 w3.
Proof.
  intros (H1 & H2 & H3 & H4) (K1 & K2 & K3 & K4). repeat split; try congruence.
  intros d Hd. rewrite K4 by congruence. by apply H4.
Qed.

Lemma Remove_kept w name :
  kept_but_working_dir w (set_os (Remove (os w) (cwd (os w)) name).1 w).
Proof.
  unfold Remove. destruct (dirs (os w) !! cwd (os w)) as [dir|]; [|by destruct w as [? ? []]].
  destruct (dir !! name) as [[[]|c]|]; try (by destruct w as [? ? []]).
  all: repeat split; try done; intros d Hd; cbn; by rewrite lookup_insert_ne.
Qed.

Lemma deleteRecord_files_kept idStr entries w :
  kept_but_working_dir w (deleteRecord_files idStr entries w).2.
Proof.
  revert w. induction entries as [|e es IH]; intros w; [done|].
  cbn [deleteRecord_files]. destruct (String.prefix idStr e.1); [|apply IH].
  rewrite bind_run. cbn [get].
  pose proof (Remove_kept w e.1) as Hk.
  destruct (Remove (os w) (cwd (os w)) e.1) as [o [x|]]; rewrite bind_run; cbn [modify fst] in *.
  - done.
  - eapply kept_trans; [exact Hk | apply IH].
Qed.

Lemma Unmount_kept fuel p c w : kept_but_working_dir w (Unmount fuel p c w).2.
Proof.
  destruct fuel as [|fuel]; [done|]. rewrite Unmount_crashes.
  by destruct (Fs.writer _).
Qed.

Lemma deleteRecord_children_kept fuel r us w :
  kept_but_working_dir w (deleteRecord_children (Unmount fuel) r us w).2 /\
  (returned (deleteRecord_children (Unmount fuel) r us w).1 = true ->
   (deleteRecord_children (Unmount fuel) r us w) = (Return None, w)).
Proof.
  destruct us as [|u us]; [done|]. cbn [deleteRecord_children].
  rewrite bind_run. unfold deref.
  destruct r as [l|]; [|done]. destruct (heap w !! l) as [rec|]; [|done].
  rewrite bind_run. pose proof (Unmount_kept fuel (id rec) u w) as Hk.
  destruct fuel as [|fuel]; [done|]. rewrite Unmount_crashes in *.
  by destruct (Fs.writer _).
Qed.

(** X17: [deleteRecord] never takes a record out of the index and never
    changes a record: it has no statement that deletes from the index, and
    the [Unmount] it calls for a child stops in [record] before it has
    changed anything.  Of the files it can only change those of the working
    directory of the process, so that the storage root is untouched unless
    the process works in it. *)
Theorem deleteRecord_keeps_the_index (fuel : nat) (r : ptr) (w : World) :
  let w' := (deleteRecord fuel r w).2 in
  records (the_fs w') = records (the_fs w) /\
  heap w' = heap w /\
  cwd (os w') = cwd (os w) /\
  forall d, d <> cwd (os w) -> dirs (os w') !! d = dirs (os w) !! d.
Proof.
  cbv zeta. change (kept_but_working_dir w (deleteRecord fuel r w).2).
  unfold deleteRecord, deleteRecord_with. rewrite bind_run. unfold deref at 1.
  destruct r as [l|]; [|done]. destruct (heap w !! l) as [rec|] eqn:Hl; [|done].
  rewrite bind_run.
  destruct (deleteRecord_children_kept fuel (Some l) (Children rec) w) as [Hk Hret].
  destruct (deleteRecord_children (Unmount fuel) (Some l) (Children rec) w) as [[[e|]|c|] w1];
    try exact Hk.
  specialize (Hret eq_refl). injection Hret as ->.
  rewrite bind_run. cbn [get].
  destruct (ReadDir (os w) (basePath (the_fs w))) as [entries [e|]]; [done|].
  rewrite bind_run. unfold deref. rewrite Hl. apply deleteRecord_files_kept.
Qed.

End Deleting.

(** * The handlers *)
Section Handlers.

(** X18: upload, then cat: for an identifier text that parses, a sane section
    name and a storage root in which no directory has the name of the
    section file, [handleUpload] answers OK and [handleCat] then copies
    the uploaded bytes to the response before its own OK.  Neither asks
    whether the identifier has a record. *)
Theorem upload_then_cat (idArg section : string) (body : list byte) (w : World)
    (dir : gmap string node) :
  (Parse idArg).2 = None ->
  checkSectionNameSanity section = None ->
  dirs (os w) !! basePath (the_fs w) = Some dir ->
  (forall e, dir !! sectionFileName (Parse idArg).1 section <> Some (Dir e)) ->
  exists w',
    handleUpload idArg section body w = (Return [SendOK NoPayload], w') /\
    handleCat idArg section w' = (Return [Copied (Blob body); SendOK NoPayload], w') /\
    the_fs w' = the_fs w /\ heap w' = heap w.
Proof.
  intros Hp Hs Hd Hnd.
  destruct (section_steps _ section body w dir Hs Hd Hnd) as (Hc & Hw & Ho & Hr).
  exists (with_section (Parse idArg).1 section body dir w).
  unfold handleUpload, handleCat. destruct (Parse idArg) as [u e]. cbn [fst snd] in *. subst e.
  split; [|split; [|done]].
  - rewrite bind_run, Hc, bind_run, Hw. done.
  - rewrite bind_run, Ho, bind_run, Hr. done.
Qed.

Lemma upload_then_cat_witness :
  (Parse "2z1r4nSN3o874XC8nLGY8g").2 = None /\
  checkSectionNameSanity "thumb" = None /\
  dirs (os w0) !! basePath (the_fs w0) = Some files0 /\
  (forall e, files0 !! sectionFileName (Parse "2z1r4nSN3o874XC8nLGY8g").1 "thumb"
             <> Some (Dir e)) /\
  record_of w0 (Parse "2z1r4nSN3o874XC8nLGY8g").1 = None /\
  exists w',
    handleUpload "2z1r4nSN3o874XC8nLGY8g" "thumb" ["001"; "002"; "003"]%char w0
      = (Return [SendOK NoPayload], w') /\
    handleCat "2z1r4nSN3o874XC8nLGY8g" "thumb" w'
      = (Return [Copied (Blob ["001"; "002"; "003"]%char); SendOK NoPayload], w') /\
    the_fs w' = the_fs w0 /\ heap w' = heap w0.
Proof.
  assert (H1 : (Parse "2z1r4nSN3o874XC8nLGY8g").2 = None) by (vm_compute; reflexivity).
  assert (H2 : checkSectionNameSanity "thumb" = None) by reflexivity.
  assert (H3 : dirs (os w0) !! basePath (the_fs w0) = Some files0) by (vm_compute; reflexivity).
  assert (H4 : forall e, files0 !! sectionFileName (Parse "2z1r4nSN3o874XC8nLGY8g").1 "thumb"
                         <> Some (Dir e)) by (intros e; vm_compute; discriminate).
  split; [exact H1|]. split; [exact H2|]. split; [exact H3|]. split; [exact H4|].
  split; [vm_compute; reflexivity|].
  exact (upload_then_cat "2z1r4nSN3o874XC8nLGY8g" "thumb" _ w0 files0 H1 H2 H3 H4).
Defined.

(** X19: [handleLs] answers 400 to an identifier text that does not parse and
    the children to an identifier in the index; for any other identifier
    it panics in [GetChildren].  Its 404 answer is never sent. *)
Theorem handleLs_never_answers_404 (idArg : string) (w : World) :
  handleLs idArg w =
  match Parse idArg with
  | (_, Some e) => (Return [SendError StatusBadRequest "parse id" (Some e)], w)
  | (u, None) =>
      match record_of w u with
      | Some r => (Return [SendOK (ChildrenPayload (Children r))], w)
      | None => (Crash PanicNilDereference, w)
      end
  end.
Proof.
  unfold handleLs. destruct (Parse idArg) as [u [e|]]; [done|].
  rewrite bind_run, GetChildren_run. by destruct (record_of w u).
Qed.

(** X20: no handler touches the store or the files before the identifier texts
    it is given parse: the answer to a malformed one is 400. *)
Theorem handlers_refuse_malformed_identifiers (idArg : string) (e : error) (w : World) :
  (Parse idArg).2 = Some e ->
  handleLs idArg w = (Return [SendError StatusBadRequest "parse id" (Some e)], w) /\
  (forall section,
     handleCat idArg section w = (Return [SendError StatusBadRequest "parse id" (Some e)], w)) /\
  (forall section body,
     handleUpload idArg section body w = (Return [SendError StatusBadRequest "invalid id" None], w)) /\
  (forall name fresh_id,
     handleTouch idArg name fresh_id w = (Return [SendError StatusBadRequest "parse id" (Some e)], w) /\
     handleMkdir idArg name fresh_id w = (Return [SendError StatusBadRequest "parse id" (Some e)], w)) /\
  (forall other fuel,
     handleMount idArg other w = (Return [SendError StatusBadRequest "parse id" (Some e)], w) /\
     handleUnmount fuel idArg other w = (Return [SendError StatusBadRequest "parse id" (Some e)], w)) /\
  (forall parentArg fuel,
     (Parse parentArg).2 = None ->
     handleMount parentArg idArg w = (Return [SendError StatusBadRequest "parse id" (Some e)], w) /\
     handleUnmount fuel parentArg idArg w = (Return [SendError StatusBadRequest "parse id" (Some e)], w)).
Proof.
  intros Hp.
  unfold handleLs, handleCat, handleUpload, handleTouch, handleMkdir, handleMount, handleUnmount.
  destruct (Parse idArg) as [u e']. cbn [snd] in Hp. subst e'.
  repeat split; try done.
  all: destruct (Parse parentArg) as [p e']; cbn [snd] in *; by subst e'.
Qed.

Lemma handlers_refuse_malformed_identifiers_witness :
  (Parse "not-an-id").2 = Some (ErrInvalidLength 9) /\
  (Parse "WXC2BGKFiiDAjBWbf6wayV").2 = None /\
  handleLs "not-an-id" w0
    = (Return [SendError StatusBadRequest "parse id" (Some (ErrInvalidLength 9))], w0) /\
  handleMount "WXC2BGKFiiDAjBWbf6wayV" "not-an-id" w0
    = (Return [SendError StatusBadRequest "parse id" (Some (ErrInvalidLength 9))], w0).
Proof.
  assert (H1 : (Parse "not-an-id").2 = Some (ErrInvalidLength 9)) by (vm_compute; reflexivity).
  assert (H2 : (Parse "WXC2BGKFiiDAjBWbf6wayV").2 = None) by (vm_compute; reflexivity).
  split; [exact H1|]. split; [exact H2|].
  destruct (handlers_refuse_malformed_identifiers "not-an-id" _ w0 H1)
    as (Hls & _ & _ & _ & _ & Hmount).
  split; [exact Hls|].
  exact (proj1 (Hmount "WXC2BGKFiiDAjBWbf6wayV" 1%nat H2)).
Defined.

(** X21: the four handlers that change the tree answer nothing but 400.
    Once the identifier texts parse, the first call of [record] in [Touch],
    [Mkdir], [Mount] or [Unmount] never comes back; so whenever one of
    these handlers returns, it has sent the error of a malformed identifier
    and has left the store and the files as they were. *)
Theorem tree_handlers_answer_only_400 (w w' : World) (replies : list reply) :
  (forall idArg name fresh_id,
     handleTouch idArg name fresh_id w = (Return replies, w') \/
     handleMkdir idArg name fresh_id w = (Return replies, w') ->
     exists e, (Parse idArg).2 = Some e /\
       replies = [SendError StatusBadRequest "parse id" (Some e)] /\ w' = w) /\
  (forall parentArg childArg fuel,
     handleMount parentArg childArg w = (Return replies, w') \/
     handleUnmount fuel parentArg childArg w = (Return replies, w') ->
     exists e, ((Parse parentArg).2 = Some e \/ (Parse childArg).2 = Some e) /\
       replies = [SendError StatusBadRequest "parse id" (Some e)] /\ w' = w).
Proof.
  split.
  - intros idArg name fresh_id. unfold handleTouch, handleMkdir.
    destruct (Parse idArg) as [u [e|]]; cbn [snd].
    + intros [[= <- <-]|[= <- <-]]; by exists e.
    + rewrite !bind_run, Touch_crashes, Mkdir_crashes.
      destruct (writer _); intros [?|?]; discriminate.
  - intros parentArg childArg fuel. unfold handleMount, handleUnmount.
    destruct (Parse parentArg) as [p [e|]]; cbn [snd].
    { intros [[= <- <-]|[= <- <-]]; exists e; auto. }
    destruct (Parse childArg) as [c [e|]]; cbn [snd].
    { intros [[= <- <-]|[= <- <-]]; exists e; auto. }
    rewrite !bind_run, Mount_crashes. destruct fuel as [|fuel].
    + cbn [Unmount]. destruct (writer _); intros [?|?]; discriminate.
    + rewrite Unmount_crashes. destruct (writer _); intros [?|?]; discriminate.
Qed.

Lemma tree_handlers_answer_only_400_witness :
  exists e, (Parse "not-an-id").2 = Some e /\
    [SendError StatusBadRequest "parse id" (Some (ErrInvalidLength 9))]
      = [SendError StatusBadRequest "parse id" (Some e)] /\ w0 = w0.
Proof.
  apply (proj1 (tree_handlers_answer_only_400 w0 w0 _) "not-an-id" "a.txt" idN).
  left. vm_compute. reflexivity.
Defined.

End Handlers.
